(** * sir-lancebot: the bookmark cog and the bot session

    A shallow embedding of [bot/exts/utilities/bookmark.py] and of the
    [close] and [on_command_error] methods of [bot/bot.py].

    The coroutines are written in a state-and-exception monad over a
    [World] that holds the Redis cache of the cog and the trace of the calls
    made to the platform (Discord, aiohttp, Redis session).  What the
    platform answers to a call (a DM is delivered or refused, a close
    raises, a reaction arrives or the wait times out) is an argument of the
    function that makes the call, so every theorem quantifies over all the
    answers the platform can give. *)

From Stdlib Require Import ZArith String Ascii List Lia.
From stdpp Require Import base tactics option list gmap strings.

Local Open Scope string_scope.
Local Open Scope Z_scope.
Local Open Scope list_scope.

(** ** Data *)

(** [discord.Member]: the fields the cog reads. *)
Record Member := { member_id : Z; member_mention : string }.

(** [discord.Message]: the fields the cog reads.  A channel is identified by
    its id, which is what [discord.abc.Messageable.__eq__] compares. *)
Record Message := {
  message_id : Z;
  message_channel : Z;
  message_content : string;
  message_jump_url : string
}.

(** [discord.Reaction]; [reaction_emoji] is [str(reaction.emoji)]. *)
Record Reaction := { reaction_message_id : Z; reaction_emoji : string }.

(** What [discord.MessageReference.resolved] holds when it is not [None]: the
    referenced [Message], or a [DeletedReferencedMessage] when the message
    replied to has been deleted.  The latter is an ordinary object, hence true
    in a condition, and it has an id but no [channel] attribute. *)
Inductive Resolved :=
| ResolvedMessage (message : Message)
| DeletedReferencedMessage.

(** [discord.MessageReference]: only [resolved] is read; it is [None] when the
    message replied to was not fetched. *)
Record MessageReference := { resolved : option Resolved }.

(** [commands.Context]. *)
Record Context := {
  ctx_author : Member;
  ctx_channel : Z;
  ctx_message_reference : option MessageReference;
  ctx_message_jump_url : string
}.

(** The exceptions that travel through the modelled code.  [UserInputError]
    stands for [commands.UserInputError] raised with a message;
    [AlreadyBookmarkedError] subclasses it.  [HTTPException] stands for the
    platform's failures other than [Forbidden].  [OtherException] names an
    exception outside [commands.UserInputError], such as the [TypeError] and
    [AttributeError] of the interpreter. *)
Inductive exn :=
| Forbidden
| HTTPException
| TimeoutError
| UserInputError (msg : string)
| AlreadyBookmarkedError
| OtherException (name : string).

(** [isinstance(exception, commands.UserInputError)].  The subclasses the
    library raises while it converts arguments ([BadArgument] and the like)
    are raised before a command body runs and are written [UserInputError]
    here; an [OtherException] is by its reading none of them. *)
Definition is_UserInputError (e : exn) : bool :=
  match e with
  | UserInputError _ | AlreadyBookmarkedError => true
  | _ => false
  end.

#[global] Instance exn_eq_dec : EqDecision exn.
Proof. solve_decision. Defined.

(** The embeds the cog builds.  [ErrorEmbed] keeps the description only: its
    title is [random.choice(ERROR_REPLIES)] and plays no role below. *)
Inductive Embed :=
| BookmarkEmbed (title description jump_url : string)
| ErrorEmbed (description : string)
| ReactionEmbed (description : string).

(** What the platform answers to a call. *)
Inductive answer (A : Type) :=
| Returns (a : A)
| Raises (e : exn).
Arguments Returns {A} a.
Arguments Raises {A} e.

(** A trace entry: a call to the platform together with its answer. *)
Inductive event :=
| MemberSend (member : Z) (embed : Embed) (a : answer Message)
| ChannelSend (channel : Z) (embed : Embed) (a : answer Message)
| AddReaction (message : Z) (emoji : string) (a : answer unit)
| WaitFor (name : string) (timeout : Z) (a : answer (Reaction * Member))
| ReactionRemove (reaction : Reaction) (a : answer unit)
| MessageDelete (message : Z) (a : answer unit)
| ResetCooldown (a : answer unit)
| SuperOnCommandError (e : exn) (a : answer unit)
| SuperClose (a : answer unit)
| HttpSessionClose (a : answer unit)
| RedisSessionClose (a : answer unit).

(** The cache holds, per member id, [json.dumps] of a list of message ids,
    and is read back with [json.loads]; the two are inverse on lists of
    integers, so the entry is kept as the list itself.  An absent key is
    kept apart from a stored empty list. *)
Record World := {
  member_bookmarked_messages : gmap Z (list Z);
  trace : list event
}.

(** ** The monad *)

Inductive result (A : Type) :=
| Ok (a : A)
| Raise (e : exn)
| OutOfFuel.
Arguments Ok {A} a.
Arguments Raise {A} e.
Arguments OutOfFuel {A}.

Definition M (A : Type) : Type := World → result A * World.

#[global] Instance M_ret : MRet M := λ A a w, (Ok a, w).

#[global] Instance M_bind : MBind M := λ A B f m w,
  match m w with
  | (Ok a, w') => f a w'
  | (Raise e, w') => (Raise e, w')
  | (OutOfFuel, w') => (OutOfFuel, w')
  end.

Definition raise {A} (e : exn) : M A := λ w, (Raise e, w).

Definition out_of_fuel {A} : M A := λ w, (OutOfFuel, w).

(** [try: m except <handled>: h e]: the handler sees the exceptions that
    [handled] selects, the others propagate. *)
Definition try_except {A} (m : M A) (handled : exn → bool) (h : exn → M A) : M A :=
  λ w, match m w with
       | (Raise e, w') => if handled e then h e w' else (Raise e, w')
       | r => r
       end.

Definition record (ev : event) (w : World) : World :=
  {| member_bookmarked_messages := member_bookmarked_messages w;
     trace := trace w ++ [ev] |}.

(** The platform is called and answers [a]: the call is recorded with its
    answer, which is returned or raised. *)
Definition platform {A} (c : answer A → event) (a : answer A) : M A := λ w,
  (match a with Returns x => Ok x | Raises e => Raise e end, record (c a) w).

(** [RedisCache.get(key, default)] and [RedisCache.set(key, value)]. *)
Definition cache_get (key : Z) (default_value : list Z) : M (list Z) := λ w,
  (Ok (default default_value (member_bookmarked_messages w !! key)), w).

Definition cache_set (key : Z) (value : list Z) : M unit := λ w,
  (Ok tt, {| member_bookmarked_messages := <[key := value]> (member_bookmarked_messages w);
             trace := trace w |}).

(** ** bot.py *)

(** The two attributes [close] tests for truth. *)
Record SeasonalBot := { http_session : bool; redis_session : bool }.

Definition close (self : SeasonalBot)
    (client_closed http_closed redis_closed : answer unit) : M unit :=
  platform SuperClose client_closed;;
  (if http_session self then platform HttpSessionClose http_closed else mret tt);;
  (if redis_session self then platform RedisSessionClose redis_closed else mret tt).

Definition on_command_error (exception : exn) (acked : answer unit) : M unit :=
  if is_UserInputError exception then
    platform ResetCooldown acked
  else
    platform (SuperOnCommandError exception) acked.

(** ** bookmark.py *)

Definition TIMEOUT : Z := 120.

(** U+1F4CC, the pushpin: four bytes in UTF-8. *)
Definition BOOKMARK_EMOJI : string := "📌".

Definition nl : string := String "010" EmptyString.

Definition MESSAGE_NOT_FOUND_ERROR : string :=
  "You must either provide a valid message to bookmark, or reply to one."
  +:+ nl +:+ nl +:+ "The lookup strategy for a message is as follows (in order):"
  +:+ nl +:+ "1. Lookup by '{channel ID}-{message ID}' (retrieved by shift-clicking on 'Copy ID')"
  +:+ nl +:+ "2. Lookup by message ID (the message **must** have been sent after the bot last started)"
  +:+ nl +:+ "3. Lookup by message URL".

(** [list.remove]: drops the first occurrence; [None] stands for the
    [ValueError] raised when there is none. *)
Fixpoint list_remove (x : Z) (l : list Z) : option (list Z) :=
  match l with
  | [] => None
  | y :: l' => if decide (x = y) then Some l' else (y ::.) <$> list_remove x l'
  end.

Inductive add_or_remove := add | remove.

(** The cog: [self.bot.user.id] is all that is read of [self.bot]. *)
Record Bookmark := { bot_user_id : Z }.

Definition get_member_bookmarked_messages (member : Member) : M (list Z) :=
  cache_get (member_id member) [].

Definition update_member_bookmarked_messages
    (member : Member) (message_id : Z) (action : add_or_remove) : M unit :=
  members_bookmarked_messages ← get_member_bookmarked_messages member;
  if decide (message_id ∉ members_bookmarked_messages) then
    (* Member deleted a DM message other than a bookmark *)
    mret tt
  else
    match action with
    | add =>
        cache_set (member_id member) (members_bookmarked_messages ++ [message_id])
    | remove =>
        match list_remove message_id members_bookmarked_messages with
        | Some l => cache_set (member_id member) l
        | None => raise (OtherException "ValueError")
        end
    end.

Definition build_bookmark_dm (target_message : Message) (title : string) : Embed :=
  BookmarkEmbed title (message_content target_message) (message_jump_url target_message).

Definition build_error_embed (message : string) : Embed := ErrorEmbed message.

(** [sent] is the platform's answer to [member.send]: the DM message, or
    the exception ([Forbidden] when the member's DMs are closed). *)
Definition maybe_send_bookmark
    (target_message : Message) (title : string) (member : Member)
    (sent : answer Message) : M Message :=
  members_bookmarked_messages ← get_member_bookmarked_messages member;
  if decide (message_id target_message ∈ members_bookmarked_messages) then
    raise AlreadyBookmarkedError
  else
    let embed := build_bookmark_dm target_message title in
    message ← platform (MemberSend (member_id member) embed) sent;
    update_member_bookmarked_messages member (message_id message) add;;
    mret message.

(** [posted] answers [channel.send], should it be reached. *)
Definition action_bookmark
    (channel : Z) (member : Member) (target_message : Message) (title : string)
    (sent posted : answer Message) : M unit :=
  error_embed ←
    try_except
      (maybe_send_bookmark target_message title member sent;; mret None)
      (λ e, bool_decide (e = Forbidden ∨ e = AlreadyBookmarkedError))
      (λ e, match e with
            | Forbidden =>
                mret (Some (build_error_embed
                  (member_mention member +:+ ", please enable your DMs to receive the bookmark.")))
            | _ =>
                mret (Some (build_error_embed
                  (member_mention member +:+ ", you have already bookmarked this message!")))
            end);
  match error_embed with
  | None => mret tt
  | Some embed => platform (ChannelSend channel embed) posted;; mret tt
  end.

(** [event_check], the closure of [bookmark]: [reaction_message] is the
    prompt, and [bookmarked_users] the list the closure shares with the
    loop, read as it stands when the check runs. *)
Definition event_check (self : Bookmark) (reaction_message : Message)
    (bookmarked_users : list Z) (reaction : Reaction) (user : Member) : bool :=
  forallb id [
    (* Reaction is on this message *)
    bool_decide (reaction_message_id reaction = message_id reaction_message);
    (* User has not already bookmarked this message *)
    bool_decide (member_id user ∉ bookmarked_users);
    (* Reaction is the `BOOKMARK_EMOJI` emoji *)
    bool_decide (reaction_emoji reaction = BOOKMARK_EMOJI);
    (* Reaction was not made by the Bot *)
    bool_decide (member_id user ≠ bot_user_id self)
  ].

(** A [reaction_add] event dispatched [arrival_delay] seconds after a wait
    began. *)
Record Arrival := {
  arrival_delay : Z;
  arrival_reaction : Reaction;
  arrival_user : Member
}.

(** [Client.wait_for(name, timeout=, check=)]: the first event dispatched
    before [timeout] seconds have passed since the call for which [check]
    holds, [asyncio.TimeoutError] when there is none. *)
Definition wait_for_answer (timeout : Z) (check : Reaction → Member → bool)
    (arrivals : list Arrival) : answer (Reaction * Member) :=
  match find (λ a, bool_decide (0 ≤ arrival_delay a < timeout)
                   && check (arrival_reaction a) (arrival_user a)) arrivals with
  | Some a => Returns (arrival_reaction a, arrival_user a)
  | None => Raises TimeoutError
  end.

Definition wait_for (name : string) (timeout : Z)
    (check : Reaction → Member → bool) (arrivals : list Arrival) : M (Reaction * Member) :=
  platform (WaitFor name timeout) (wait_for_answer timeout check arrivals).

(** What the platform does during one pass of the loop: the reactions that
    arrive while the bot waits and, for the pass that follows an accepted
    reaction, the answers to [member.send], [channel.send] and
    [reaction.remove].  The last answer is left open so that the facts proved
    of the loop hold whatever the call does; for the call as the cog writes
    it, see [reaction_remove_without_user]. *)
Record Turn := {
  arrivals : list Arrival;
  turn_sent : answer Message;
  turn_posted : answer Message;
  turn_removed : answer unit
}.

(** The [while True] loop of [bookmark].  [turns 0] is the pass at hand,
    [turns (S n)] the passes after it; the final [bookmarked_users] is
    returned at the [break]. *)
Fixpoint collecting (fuel : nat) (self : Bookmark) (ctx : Context)
    (target_message : Message) (title : string) (reaction_message : Message)
    (turns : nat → Turn) (bookmarked_users : list Z) : M (list Z) :=
  match fuel with
  | O => out_of_fuel
  | S fuel' =>
      let turn := turns O in
      waited ←
        try_except
          (got ← wait_for "reaction_add" TIMEOUT
                   (event_check self reaction_message bookmarked_users) (arrivals turn);
           mret (Some got))
          (λ e, bool_decide (e = TimeoutError))
          (λ _, mret None);
      match waited with
      | None => mret bookmarked_users
      | Some (reaction, user) =>
          action_bookmark (ctx_channel ctx) user target_message title
            (turn_sent turn) (turn_posted turn);;
          platform (ReactionRemove reaction) (turn_removed turn);;
          collecting fuel' self ctx target_message title reaction_message
            (λ n, turns (S n)) (bookmarked_users ++ [member_id user])
      end
  end.

(** The answers of the platform to one invocation of [bookmark]. *)
Record Platform := {
  read_messages : bool;
  denial_posted : answer Message;
  author_sent : answer Message;
  author_posted : answer Message;
  prompt_posted : answer Message;
  reaction_added : answer unit;
  turns : nat → Turn;
  prompt_deleted : answer unit
}.

(** [target_message or getattr(ctx.message.reference, "resolved", None)]: the
    value the commands go on with.  A converted argument is a [Message]; the
    reply may also be a [DeletedReferencedMessage]. *)
Definition target_or_reply (ctx : Context) (given : option Message) : option Resolved :=
  match given with
  | Some m => Some (ResolvedMessage m)
  | None => ctx_message_reference ctx ≫= resolved
  end.

(** The message a command works on, when [target_or_reply] is one. *)
Definition resolve (ctx : Context) (given : option Message) : option Message :=
  match target_or_reply ctx given with
  | Some (ResolvedMessage m) => Some m
  | _ => None
  end.

Definition bookmark (fuel : nat) (self : Bookmark) (ctx : Context)
    (target_message : option Message) (title : string) (p : Platform) : M unit :=
  match target_or_reply ctx target_message with
  | None => raise (UserInputError MESSAGE_NOT_FOUND_ERROR)
  | Some DeletedReferencedMessage =>
      (* [target_message.channel]: the attribute does not exist *)
      raise (OtherException "AttributeError")
  | Some (ResolvedMessage target_message) =>
      (* Prevent users from bookmarking a message in a channel they don't have access to *)
      if negb (read_messages p) then
        let embed := build_error_embed
          (member_mention (ctx_author ctx) +:+ " You don't have permission to view this channel.") in
        platform (ChannelSend (ctx_channel ctx) embed) (denial_posted p);;
        mret tt
      else
        action_bookmark (ctx_channel ctx) (ctx_author ctx) target_message title
          (author_sent p) (author_posted p);;
        (* Keep track of who has already bookmarked *)
        let bookmarked_users := [member_id (ctx_author ctx)] in
        let reaction_embed := ReactionEmbed
          ("React with " +:+ BOOKMARK_EMOJI +:+ " to be sent your very own bookmark to [this message]("
           +:+ ctx_message_jump_url ctx +:+ ").") in
        reaction_message ← platform (ChannelSend (ctx_channel ctx) reaction_embed) (prompt_posted p);
        platform (AddReaction (message_id reaction_message) BOOKMARK_EMOJI) (reaction_added p);;
        collecting fuel self ctx target_message title reaction_message
          (turns p) bookmarked_users;;
        platform (MessageDelete (message_id reaction_message)) (prompt_deleted p)
  end.

Definition delete_bookmark (ctx : Context) (message_to_delete : option Message)
    (deleted : answer unit) : M unit :=
  match target_or_reply ctx message_to_delete with
  | None => raise (UserInputError MESSAGE_NOT_FOUND_ERROR)
  | Some DeletedReferencedMessage =>
      (* [message_to_delete.channel]: the attribute does not exist *)
      raise (OtherException "AttributeError")
  | Some (ResolvedMessage message_to_delete) =>
      if decide (message_channel message_to_delete ≠ ctx_channel ctx) then
        raise (UserInputError ":x: You can only delete messages in your own DMs!")
      else
        platform (MessageDelete (message_id message_to_delete)) deleted;;
        update_member_bookmarked_messages (ctx_author ctx) (message_id message_to_delete) remove
  end.

(** A command is invoked: what its body raises is handed to the bot's
    [on_command_error].  The library dispatches the same exception to the
    listeners of the loaded cogs as well; those are defined outside the files
    modelled here and do not appear. *)
Definition invoke (body : M unit) (acked : answer unit) : M unit :=
  try_except body (λ _, true) (λ e, on_command_error e acked).

(** [await reaction.remove()] as the cog writes it.  [discord.Reaction.remove]
    is declared [remove(self, user)]: it takes the user whose reaction is to
    be removed and gives it no default.  The cog leaves the argument out, so
    the call raises [TypeError] whenever it is reached. *)
Definition reaction_remove_without_user : answer unit :=
  Raises (OtherException "TypeError").

(** The passes on which [reaction.remove] answers as the call is written. *)
Definition as_written (turns : nat → Turn) : Prop :=
  ∀ n, turn_removed (turns n) = reaction_remove_without_user.

(** ** Reading a world *)

(** The list [get_member_bookmarked_messages] reads for the member with id
    [m]: empty when the key is absent. *)
Definition bookmarks_of (w : World) (m : Z) : list Z :=
  default [] (member_bookmarked_messages w !! m).

(** [w'] holds no id that [w] did not hold, for any member. *)
Definition no_new_ids (w w' : World) : Prop :=
  ∀ k x, x ∈ bookmarks_of w' k → x ∈ bookmarks_of w k.

Definition result_of {A} (a : answer A) : result A :=
  match a with Returns x => Ok x | Raises e => Raise e end.

(** The same, for a caller that drops the value returned. *)
Definition outcome_of {A} (a : answer A) : result unit :=
  match a with Returns _ => Ok tt | Raises e => Raise e end.

(** The DMs a trace shows as delivered: member id and DM message. *)
Definition delivered (t : list event) : list (Z * Message) :=
  omap (λ ev, match ev with
              | MemberSend m _ (Returns dm) => Some (m, dm)
              | _ => None
              end) t.

(** The users a trace shows as accepted by a wait, in order. *)
Definition accepted (t : list event) : list Z :=
  omap (λ ev, match ev with
              | WaitFor _ _ (Returns (_, user)) => Some (member_id user)
              | _ => None
              end) t.

(** The waits a trace shows as timed out, each by its timeout. *)
Definition timed_out (t : list event) : list Z :=
  omap (λ ev, match ev with
              | WaitFor _ timeout (Raises TimeoutError) => Some timeout
              | _ => None
              end) t.

(** The messages a trace shows a [delete] call for. *)
Definition deletions (t : list event) : list Z :=
  omap (λ ev, match ev with MessageDelete m _ => Some m | _ => None end) t.

Definition is_wait (ev : event) : Prop :=
  match ev with WaitFor _ _ _ => True | _ => False end.

(** The calls one pass of the loop makes between two waits. *)
Definition pass_event (ev : event) : Prop :=
  match ev with
  | MemberSend _ _ _ | ChannelSend _ _ _ | ReactionRemove _ _ => True
  | _ => False
  end.

(** The shape of what a run of the loop adds to the trace, and the list it
    returns if it reaches the [break]: a wait that times out ends it; a wait
    that accepts a reaction is followed by the calls of the pass and, if
    none of them raised, by the rest of the run with the reactor claimed. *)
Inductive loop_run (self : Bookmark) (prompt : Message) :
    (nat → Turn) → list Z → list event → option (list Z) → Prop :=
| loop_exit turns users :
    wait_for_answer TIMEOUT (event_check self prompt users) (arrivals (turns O))
      = Raises TimeoutError →
    loop_run self prompt turns users
      [WaitFor "reaction_add" TIMEOUT (Raises TimeoutError)] (Some users)
| loop_pass turns users reaction user pass rest final :
    wait_for_answer TIMEOUT (event_check self prompt users) (arrivals (turns O))
      = Returns (reaction, user) →
    Forall pass_event pass →
    loop_run self prompt (λ n, turns (S n)) (users ++ [member_id user]) rest final →
    loop_run self prompt turns users
      (WaitFor "reaction_add" TIMEOUT (Returns (reaction, user)) :: pass ++ rest) final
| loop_abort turns users reaction user pass :
    wait_for_answer TIMEOUT (event_check self prompt users) (arrivals (turns O))
      = Returns (reaction, user) →
    Forall pass_event pass →
    loop_run self prompt turns users
      (WaitFor "reaction_add" TIMEOUT (Returns (reaction, user)) :: pass) None
| loop_starved turns users :
    loop_run self prompt turns users [] None.

Definition enable_dms_text (member : Member) : string :=
  member_mention member +:+ ", please enable your DMs to receive the bookmark.".

Definition already_bookmarked_text (member : Member) : string :=
  member_mention member +:+ ", you have already bookmarked this message!".

(** [needle in text]. *)
Definition mentions (needle text : string) : bool :=
  match index 0 needle text with Some _ => true | None => false end.

(** The closes [close] goes through when none raises. *)
Definition attached_closes (self : SeasonalBot) (http_closed redis_closed : answer unit)
    : list event :=
  (if http_session self then [HttpSessionClose http_closed] else [])
  ++ (if redis_session self then [RedisSessionClose redis_closed] else []).

(** The commands as the framework invokes them, with the platform's
    answers. *)
Inductive Invocation :=
| invoke_bookmark (fuel : nat) (self : Bookmark) (ctx : Context)
    (target_message : option Message) (title : string) (p : Platform) (acked : answer unit)
| invoke_delete_bookmark (ctx : Context) (message_to_delete : option Message)
    (deleted acked : answer unit).

Definition run_invocation (w : World) (i : Invocation) : World :=
  match i with
  | invoke_bookmark fuel self ctx target_message title p acked =>
      (invoke (bookmark fuel self ctx target_message title p) acked w).2
  | invoke_delete_bookmark ctx message_to_delete deleted acked =>
      (invoke (delete_bookmark ctx message_to_delete deleted) acked w).2
  end.

Definition run_invocations (invs : list Invocation) (w : World) : World :=
  foldl run_invocation w invs.

(** *** Sample data *)

Definition alice : Member := {| member_id := 1; member_mention := "<@1>" |}.
Definition msgX : Message :=
  {| message_id := 100; message_channel := 7; message_content := "hello";
     message_jump_url := "https://discord.com/channels/9/7/100" |}.
Definition dm1 : Message :=
  {| message_id := 500; message_channel := 11; message_content := "";
     message_jump_url := "https://discord.com/channels/@me/11/500" |}.
Definition dm2 : Message :=
  {| message_id := 501; message_channel := 11; message_content := "";
     message_jump_url := "https://discord.com/channels/@me/11/501" |}.
Definition w0 : World := {| member_bookmarked_messages := ∅; trace := [] |}.

(** Alice holds an entry for a DM she no longer has, Bob one for DM 500. *)
Definition w_seeded : World :=
  {| member_bookmarked_messages := {[1 := [777]; 2 := [500]]}; trace := [] |}.

Definition cog : Bookmark := {| bot_user_id := 99 |}.
Definition bob : Member := {| member_id := 2; member_mention := "<@2>" |}.
Definition prompt600 : Message :=
  {| message_id := 600; message_channel := 7; message_content := "";
     message_jump_url := "https://discord.com/channels/9/7/600" |}.
Definition pin600 : Reaction :=
  {| reaction_message_id := 600; reaction_emoji := BOOKMARK_EMOJI |}.

(** Alice invokes the command in channel 7, replying to nothing. *)
Definition ctx7 : Context :=
  {| ctx_author := alice; ctx_channel := 7; ctx_message_reference := None;
     ctx_message_jump_url := "https://discord.com/channels/9/7/150" |}.

(** Alice invokes a command in her DM channel, 11. *)
Definition ctx11 : Context :=
  {| ctx_author := alice; ctx_channel := 11; ctx_message_reference := None;
     ctx_message_jump_url := "https://discord.com/channels/@me/11/510" |}.

Definition silent_turn : Turn :=
  {| arrivals := []; turn_sent := Raises Forbidden;
     turn_posted := Returns prompt600; turn_removed := Returns tt |}.

(** Bob, whose DMs are closed, reacts to the prompt five seconds into the
    first wait; Alice reacts too, and a reaction arrives too late. *)
Definition bob_reacts : Turn :=
  {| arrivals := [ {| arrival_delay := 3; arrival_reaction := pin600; arrival_user := alice |};
                   {| arrival_delay := 5; arrival_reaction := pin600; arrival_user := bob |};
                   {| arrival_delay := 130; arrival_reaction := pin600; arrival_user := bob |} ];
     turn_sent := Raises Forbidden;
     turn_posted := Returns prompt600;
     turn_removed := Returns tt |}.

Definition session : Platform :=
  {| read_messages := true;
     denial_posted := Returns prompt600;
     author_sent := Returns dm1;
     author_posted := Returns prompt600;
     prompt_posted := Returns prompt600;
     reaction_added := Returns tt;
     turns := λ n, match n with O => bob_reacts | _ => silent_turn end;
     prompt_deleted := Returns tt |}.

(** Nobody reacts during the wait. *)
Definition nobody_reacts : Turn :=
  {| arrivals := []; turn_sent := Raises Forbidden;
     turn_posted := Returns prompt600;
     turn_removed := reaction_remove_without_user |}.

(** Bob reacts to the prompt five seconds into the wait and again later; his
    DMs are closed. *)
Definition bob_reacts_dms_closed : Turn :=
  {| arrivals := [ {| arrival_delay := 5; arrival_reaction := pin600; arrival_user := bob |};
                   {| arrival_delay := 40; arrival_reaction := pin600; arrival_user := bob |} ];
     turn_sent := Raises Forbidden;
     turn_posted := Returns prompt600;
     turn_removed := reaction_remove_without_user |}.

(** The same, with Bob's DMs open: his bookmark arrives as message 501. *)
Definition bob_reacts_dms_open : Turn :=
  {| arrivals := [ {| arrival_delay := 5; arrival_reaction := pin600; arrival_user := bob |} ];
     turn_sent := Returns dm2;
     turn_posted := Returns prompt600;
     turn_removed := reaction_remove_without_user |}.

(** Alice bookmarks a message, every call to the platform succeeds, and the
    first wait goes as [first] says; nobody reacts after that. *)
Definition session_with (first : Turn) : Platform :=
  {| read_messages := true;
     denial_posted := Returns prompt600;
     author_sent := Returns dm1;
     author_posted := Returns prompt600;
     prompt_posted := Returns prompt600;
     reaction_added := Returns tt;
     turns := λ n, match n with O => first | _ => nobody_reacts end;
     prompt_deleted := Returns tt |}.

(** Alice invokes the command in channel 7 without an argument, replying to
    a message that has been deleted since. *)
Definition ctx_reply_deleted : Context :=
  {| ctx_author := alice; ctx_channel := 7;
     ctx_message_reference := Some {| resolved := Some DeletedReferencedMessage |};
     ctx_message_jump_url := "https://discord.com/channels/9/7/150" |}.

(** Alice invokes it replying to a message the library did not fetch. *)
Definition ctx_reply_unfetched : Context :=
  {| ctx_author := alice; ctx_channel := 7;
     ctx_message_reference := Some {| resolved := None |};
     ctx_message_jump_url := "https://discord.com/channels/9/7/150" |}.

(** ** Further readings of a trace and of the cache *)

(** The members a trace shows a [member.send] call for, delivered or not. *)
Definition dm_targets (t : list event) : list Z :=
  omap (λ ev, match ev with MemberSend m _ _ => Some m | _ => None end) t.

(** The reactions a trace shows a [remove] call for. *)
Definition removals (t : list event) : list Reaction :=
  omap (λ ev, match ev with ReactionRemove r _ => Some r | _ => None end) t.

(** The embeds a trace shows posted to a channel. *)
Definition posts (t : list event) : list (Z * Embed) :=
  omap (λ ev, match ev with ChannelSend c e _ => Some (c, e) | _ => None end) t.

(** From [w] to [w'] the cache has kept its keys, and only the entries of
    the members in [ks] may differ. *)
Definition evolves (ks : list Z) (w w' : World) : Prop :=
  dom (member_bookmarked_messages w') = dom (member_bookmarked_messages w) ∧
  ∀ k, k ∉ ks → member_bookmarked_messages w' !! k = member_bookmarked_messages w !! k.

(** [w] and [w'] hold the same ids, member by member. *)
Definition same_ids (w w' : World) : Prop :=
  ∀ k x, x ∈ bookmarks_of w' k ↔ x ∈ bookmarks_of w k.

Definition permission_text (member : Member) : string :=
  member_mention member +:+ " You don't have permission to view this channel.".

Definition prompt_embed (ctx : Context) : Embed :=
  ReactionEmbed
    ("React with " +:+ BOOKMARK_EMOJI
     +:+ " to be sent your very own bookmark to [this message]("
     +:+ ctx_message_jump_url ctx +:+ ").").

(** Alice's DM 777, the one her seeded entry lists. *)
Definition dm777 : Message :=
  {| message_id := 777; message_channel := 11; message_content := "";
     message_jump_url := "https://discord.com/channels/@me/11/777" |}.

(** The sample session with the author's DM failing for a reason other
    than closed DMs, with the author's DMs closed, and with the author
    lacking read access to the target's channel. *)
Definition session_send_fails : Platform :=
  {| read_messages := true;
     denial_posted := Returns prompt600;
     author_sent := Raises HTTPException;
     author_posted := Returns prompt600;
     prompt_posted := Returns prompt600;
     reaction_added := Returns tt;
     turns := λ _, silent_turn;
     prompt_deleted := Returns tt |}.

Definition session_dms_closed : Platform :=
  {| read_messages := true;
     denial_posted := Returns prompt600;
     author_sent := Raises Forbidden;
     author_posted := Returns prompt600;
     prompt_posted := Returns prompt600;
     reaction_added := Returns tt;
     turns := λ _, silent_turn;
     prompt_deleted := Returns tt |}.

Definition session_denied : Platform :=
  {| read_messages := false;
     denial_posted := Returns prompt600;
     author_sent := Returns dm1;
     author_posted := Returns prompt600;
     prompt_posted := Returns prompt600;
     reaction_added := Returns tt;
     turns := λ _, silent_turn;
     prompt_deleted := Returns tt |}.

(** ** bot.py: the readiness gate and the startup notice *)

(** [Client.guild] and [Channels.devlog] of [bot.constants], a module that
    is not among the sources: they are kept as parameters. *)
Record Constants := { Client_guild : Z; Channels_devlog : Z }.

(** [discord.Guild]: its id and the three caches [on_guild_available]
    tests for emptiness, kept by the ids they hold. *)
Record Guild := {
  guild_id : Z;
  guild_roles : list Z;
  guild_members : list Z;
  guild_channels : list Z
}.

(** The two gateway events the bot handles for the gate. *)
Inductive guild_event :=
| GuildAvailable (guild : Guild)
| GuildUnavailable (guild : Guild).

(** The embed of [send_log]: [Embed(description=details)] with
    [set_author(name=title, icon_url=icon)]. *)
Record LogEmbed := {
  log_description : option string;
  log_author_name : string;
  log_author_icon_url : string
}.

(** The calls of [send_log], with their answers. *)
Inductive bot_call :=
| GetChannel (id : Z) (found : option Z)
| FetchChannel (id : Z) (a : answer Z)
| AvatarUrlAs (format : string) (url : string)
| DevlogSend (channel : Z) (embed : LogEmbed) (a : answer unit).

(** The bot session: whether [self._guild_available] is set, and the calls
    made so far. *)
Record Session := { guild_available : bool; calls : list bot_call }.

Definition B (A : Type) : Type := Session → result A * Session.

#[global] Instance B_ret : MRet B := λ A a s, (Ok a, s).

#[global] Instance B_bind : MBind B := λ A B' f m s,
  match m s with
  | (Ok a, s') => f a s'
  | (Raise e, s') => (Raise e, s')
  | (OutOfFuel, s') => (OutOfFuel, s')
  end.

Definition b_try_except {A} (m : B A) (handled : exn → bool) (h : exn → B A) : B A :=
  λ s, match m s with
       | (Raise e, s') => if handled e then h e s' else (Raise e, s')
       | r => r
       end.

(** A call is made and answered. *)
Definition calling {A} (c : bot_call) (r : result A) : B A := λ s,
  (r, {| guild_available := guild_available s; calls := calls s ++ [c] |}).

Definition set_guild_available (b : bool) : B unit := λ s,
  (Ok tt, {| guild_available := b; calls := calls s |}).

Definition on_guild_available (c : Constants) (guild : Guild) : B unit :=
  if decide (guild_id guild ≠ Client_guild c) then
    mret tt
  else if bool_decide (guild_roles guild = [])
          || bool_decide (guild_members guild = [])
          || bool_decide (guild_channels guild = []) then
    (* Guild available event was dispatched but the cache appears to still be empty! *)
    mret tt
  else
    set_guild_available true.

Definition on_guild_unavailable (c : Constants) (guild : Guild) : B unit :=
  if decide (guild_id guild ≠ Client_guild c) then
    mret tt
  else
    set_guild_available false.

(** The dispatcher hands an event to its handler. *)
Definition dispatch (c : Constants) (ev : guild_event) : B unit :=
  match ev with
  | GuildAvailable guild => on_guild_available c guild
  | GuildUnavailable guild => on_guild_unavailable c guild
  end.

(** The session after the events have been handled, in order. *)
Definition run_events (c : Constants) (events : list guild_event) (s : Session) : Session :=
  foldl (λ s ev, (dispatch c ev s).2) s events.

(** [await self._guild_available.wait()]: it returns at once when the flag
    is set; otherwise the coroutine is suspended while the events that
    arrive are handled, and resumes after the first one that sets the flag.
    [OutOfFuel] says that it is still suspended when the events at hand are
    used up. *)
Fixpoint wait_until_guild_available (c : Constants) (events : list guild_event) : B unit :=
  λ s,
    if guild_available s then (Ok tt, s)
    else match events with
         | [] => (OutOfFuel, s)
         | ev :: events' => wait_until_guild_available c events' (dispatch c ev s).2
         end.

(** [discord.Forbidden], [discord.NotFound] and
    [discord.DiscordServerError] subclass [discord.HTTPException]. *)
Definition is_HTTPException (e : exn) : bool :=
  match e with
  | Forbidden | HTTPException => true
  | OtherException name => bool_decide (name = "NotFound" ∨ name = "DiscordServerError")
  | _ => false
  end.

(** [not icon], for [icon: str = None]. *)
Definition not_icon (icon : option string) : bool :=
  match icon with
  | None => true
  | Some url => bool_decide (url = "")
  end.

(** What the platform does during one call of [send_log]: the guild events
    that arrive while it waits, what [get_channel] finds in the cache, the
    answer to [fetch_channel], the avatar URL of the bot, and the answer to
    [devlog.send]. *)
Record Notice := {
  guild_events : list guild_event;
  cached : option Z;
  fetched : answer Z;
  avatar : string;
  notice_sent : answer unit
}.

Definition send_log (c : Constants) (title : string) (details icon : option string)
    (n : Notice) : B unit :=
  wait_until_guild_available c (guild_events n);;
  devlog ← calling (GetChannel (Channels_devlog c) (cached n)) (Ok (cached n));
  devlog ← match devlog with
           | Some channel => mret (Some channel)
           | None =>
               b_try_except
                 (channel ← calling (FetchChannel (Channels_devlog c) (fetched n))
                              (result_of (fetched n));
                  mret (Some channel))
                 is_HTTPException
                 (λ _, mret None)
           end;
  match devlog with
  | None => mret tt
  | Some devlog =>
      icon ← (if not_icon icon then
                calling (AvatarUrlAs "png" (avatar n)) (Ok (avatar n))
              else mret (default "" icon));
      let embed := {| log_description := details;
                      log_author_name := title;
                      log_author_icon_url := icon |} in
      calling (DevlogSend devlog embed (notice_sent n)) (result_of (notice_sent n))
  end.

(** An event that sets the flag: the home guild is reported available with
    none of its three caches empty. *)
Definition opens (c : Constants) (ev : guild_event) : Prop :=
  match ev with
  | GuildAvailable guild =>
      guild_id guild = Client_guild c ∧
      guild_roles guild ≠ [] ∧ guild_members guild ≠ [] ∧ guild_channels guild ≠ []
  | GuildUnavailable _ => False
  end.

(** An event that clears the flag: the home guild is reported unavailable. *)
Definition closes (c : Constants) (ev : guild_event) : Prop :=
  match ev with
  | GuildAvailable _ => False
  | GuildUnavailable guild => guild_id guild = Client_guild c
  end.

(** *** Sample data for the session *)

Definition pydis : Constants := {| Client_guild := 9; Channels_devlog := 40 |}.
Definition home_warm : Guild :=
  {| guild_id := 9; guild_roles := [1]; guild_members := [1; 2]; guild_channels := [7; 40] |}.
Definition home_cold : Guild :=
  {| guild_id := 9; guild_roles := [1]; guild_members := []; guild_channels := [7; 40] |}.
Definition elsewhere : Guild :=
  {| guild_id := 8; guild_roles := [1]; guild_members := [3]; guild_channels := [5] |}.
Definition starting : Session := {| guild_available := false; calls := [] |}.

(** The home guild comes up cold, then another guild, then the home guild
    warm; the devlog channel is not cached and its fetch is refused. *)
Definition notice_fetch_refused : Notice :=
  {| guild_events := [GuildAvailable home_cold; GuildAvailable elsewhere;
                      GuildAvailable home_warm];
     cached := None;
     fetched := Raises Forbidden;
     avatar := "https://cdn.discordapp.com/avatars/99/a.png";
     notice_sent := Returns tt |}.

(** The same events, with the devlog channel fetched. *)
Definition notice_fetched : Notice :=
  {| guild_events := [GuildAvailable home_cold; GuildAvailable elsewhere;
                      GuildAvailable home_warm];
     cached := None;
     fetched := Returns 40;
     avatar := "https://cdn.discordapp.com/avatars/99/a.png";
     notice_sent := Returns tt |}.

(** The home guild never comes up warm. *)
Definition notice_never_ready : Notice :=
  {| guild_events := [GuildAvailable home_cold; GuildAvailable elsewhere];
     cached := Some 40;
     fetched := Returns 40;
     avatar := "https://cdn.discordapp.com/avatars/99/a.png";
     notice_sent := Returns tt |}.

(** ** Tactics *)

(** Closes [Forall (λ ev, ¬ is_wait ev) evs] for a list of explicit calls. *)
Ltac quiet_events :=
  repeat first [apply Forall_nil_2 | apply Forall_cons_2; [cbn; tauto|]].

(** Runs the binds of a session computation whose answers are known. *)
Ltac run_session :=
  unfold mbind, B_bind, mret, B_ret, calling, b_try_except; cbn.

(** ** The target of a command *)

Lemma resolve_Some ctx given msg :
  resolve ctx given = Some msg →
  target_or_reply ctx given = Some (ResolvedMessage msg).
Proof.
  unfold resolve. destruct (target_or_reply ctx given) as [[m|]|]; [|done..].
  by intros [= ->].
Qed.

(** ** The monad, unfolded *)

Lemma bind_unfold {A B} (m : M A) (f : A → M B) (w : World) :
  (m ≫= f) w =
  match m w with
  | (Ok a, w') => f a w'
  | (Raise e, w') => (Raise e, w')
  | (OutOfFuel, w') => (OutOfFuel, w')
  end.
Proof. reflexivity. Qed.

Lemma platform_unfold {A} (c : answer A → event) (a : answer A) (w : World) :
  platform c a w = (result_of a, record (c a) w).
Proof. reflexivity. Qed.

Lemma bookmarks_of_record ev w k : bookmarks_of (record ev w) k = bookmarks_of w k.
Proof. reflexivity. Qed.

Lemma no_new_ids_refl w : no_new_ids w w.
Proof. by intros k x. Qed.

Lemma no_new_ids_trans w1 w2 w3 :
  no_new_ids w1 w2 → no_new_ids w2 w3 → no_new_ids w1 w3.
Proof. intros H12 H23 k x Hx. by apply H12, H23. Qed.

Lemma no_new_ids_record ev w : no_new_ids w (record ev w).
Proof. by intros k x. Qed.

(** ** [list.remove] *)

Lemma list_remove_is_Some x l : x ∈ l → is_Some (list_remove x l).
Proof.
  induction l as [|y l IH]; intros Hx.
  - by apply elem_of_nil in Hx.
  - simpl. destruct (decide (x = y)) as [->|Hne]; [by eexists|].
    apply elem_of_cons in Hx as [?|Hx]; [done|].
    destruct (IH Hx) as [l' ->]. by eexists.
Qed.

Lemma list_remove_subseteq x l l' : list_remove x l = Some l' → l' ⊆ l.
Proof.
  revert l'. induction l as [|y l IH]; intros l' Hrm; [done|].
  simpl in Hrm. destruct (decide (x = y)) as [->|Hne].
  - simplify_eq. intros z Hz. by right.
  - destruct (list_remove x l) as [l0|] eqn:E; [|done].
    simpl in Hrm. simplify_eq. specialize (IH l0 eq_refl).
    intros z [->|Hz]%elem_of_cons; [left|right; by apply IH].
Qed.

(** ** [update_member_bookmarked_messages] *)

(** The guard: an id that is not in the member's list leaves the world as
    it is, whatever the action. *)
Lemma update_absent member x action w :
  x ∉ bookmarks_of w (member_id member) →
  update_member_bookmarked_messages member x action w = (Ok tt, w).
Proof.
  intros Hx. unfold update_member_bookmarked_messages.
  rewrite bind_unfold. unfold get_member_bookmarked_messages, cache_get.
  fold (bookmarks_of w (member_id member)).
  by rewrite decide_True.
Qed.

Lemma update_add_present member x w :
  x ∈ bookmarks_of w (member_id member) →
  update_member_bookmarked_messages member x add w =
  (Ok tt, {| member_bookmarked_messages :=
               <[member_id member := bookmarks_of w (member_id member) ++ [x]]>
                 (member_bookmarked_messages w);
             trace := trace w |}).
Proof.
  intros Hx. unfold update_member_bookmarked_messages.
  rewrite bind_unfold. unfold get_member_bookmarked_messages, cache_get.
  fold (bookmarks_of w (member_id member)).
  rewrite decide_False; [done|]. by intros Hn.
Qed.

Lemma update_remove_present member x w :
  x ∈ bookmarks_of w (member_id member) →
  ∃ l, list_remove x (bookmarks_of w (member_id member)) = Some l ∧
       update_member_bookmarked_messages member x remove w =
       (Ok tt, {| member_bookmarked_messages :=
                    <[member_id member := l]> (member_bookmarked_messages w);
                  trace := trace w |}).
Proof.
  intros Hx. destruct (list_remove_is_Some _ _ Hx) as [l Hl].
  exists l. split; [done|].
  unfold update_member_bookmarked_messages.
  rewrite bind_unfold. unfold get_member_bookmarked_messages, cache_get.
  fold (bookmarks_of w (member_id member)).
  rewrite decide_False; [|by intros Hn]. by rewrite Hl.
Qed.

Lemma bookmarks_of_insert w k l t k' :
  bookmarks_of {| member_bookmarked_messages := <[k := l]> (member_bookmarked_messages w);
                  trace := t |} k'
  = if decide (k = k') then l else bookmarks_of w k'.
Proof.
  unfold bookmarks_of. simpl. rewrite lookup_insert.
  by destruct (decide (k = k')).
Qed.

(** Neither action ever raises, touches the trace, or brings a new id into
    any member's list. *)
Lemma update_spec member x action w :
  ∃ w', update_member_bookmarked_messages member x action w = (Ok tt, w') ∧
        trace w' = trace w ∧ no_new_ids w w'.
Proof.
  destruct (decide (x ∈ bookmarks_of w (member_id member))) as [Hx|Hx].
  - destruct action.
    + eexists. split; [by apply update_add_present|]. split; [done|].
      intros k y. rewrite bookmarks_of_insert.
      destruct (decide (member_id member = k)) as [<-|]; [|done].
      rewrite elem_of_app, list_elem_of_singleton. by intros [?| ->].
    + destruct (update_remove_present member x w Hx) as (l & Hl & ->).
      eexists. split; [done|]. split; [done|].
      intros k y. rewrite bookmarks_of_insert.
      destruct (decide (member_id member = k)) as [<-|]; [|done].
      intros Hy. by eapply list_remove_subseteq.
  - exists w. split; [by apply update_absent|]. split; [done|]. apply no_new_ids_refl.
Qed.

(** ** [maybe_send_bookmark] *)

Lemma maybe_send_bookmark_already target title member sent w :
  message_id target ∈ bookmarks_of w (member_id member) →
  maybe_send_bookmark target title member sent w = (Raise AlreadyBookmarkedError, w).
Proof.
  intros Hin. unfold maybe_send_bookmark. rewrite bind_unfold.
  unfold get_member_bookmarked_messages, cache_get.
  fold (bookmarks_of w (member_id member)). by rewrite decide_True.
Qed.

Lemma maybe_send_bookmark_refused target title member e w :
  message_id target ∉ bookmarks_of w (member_id member) →
  maybe_send_bookmark target title member (Raises e) w =
  (Raise e, record (MemberSend (member_id member) (build_bookmark_dm target title) (Raises e)) w).
Proof.
  intros Hin. unfold maybe_send_bookmark. rewrite bind_unfold.
  unfold get_member_bookmarked_messages, cache_get.
  fold (bookmarks_of w (member_id member)). by rewrite decide_False.
Qed.

Lemma maybe_send_bookmark_delivered target title member dm w :
  message_id target ∉ bookmarks_of w (member_id member) →
  maybe_send_bookmark target title member (Returns dm) w =
  (Ok dm, (update_member_bookmarked_messages member (message_id dm) add
             (record (MemberSend (member_id member) (build_bookmark_dm target title) (Returns dm)) w)).2).
Proof.
  intros Hin. unfold maybe_send_bookmark. rewrite bind_unfold.
  unfold get_member_bookmarked_messages, cache_get.
  fold (bookmarks_of w (member_id member)). rewrite decide_False; [|done].
  cbv zeta. rewrite bind_unfold, platform_unfold. simpl result_of. cbv iota beta.
  rewrite bind_unfold.
  destruct (update_spec member (message_id dm) add
    (record (MemberSend (member_id member) (build_bookmark_dm target title) (Returns dm)) w))
    as (w' & -> & _). reflexivity.
Qed.

(** The ids in a member's list are the same before and after a call,
    whatever its outcome: the only write appends an id that is in the list
    already. *)
Lemma maybe_send_bookmark_same_ids target title member sent w k x :
  x ∈ bookmarks_of (maybe_send_bookmark target title member sent w).2 k ↔
  x ∈ bookmarks_of w k.
Proof.
  destruct (decide (message_id target ∈ bookmarks_of w (member_id member))) as [Hin|Hin].
  { by rewrite maybe_send_bookmark_already. }
  destruct sent as [dm|e].
  2: { by rewrite maybe_send_bookmark_refused. }
  rewrite maybe_send_bookmark_delivered by done. cbn [snd].
  set (w1 := record _ w).
  destruct (decide (message_id dm ∈ bookmarks_of w1 (member_id member))) as [Hd|Hd].
  - rewrite update_add_present by done. cbn [snd]. rewrite bookmarks_of_insert.
    destruct (decide (member_id member = k)) as [<-|]; [|done].
    subst w1. rewrite !bookmarks_of_record in *.
    rewrite elem_of_app, list_elem_of_singleton.
    split; [by intros [?| ->] | by left].
  - by rewrite update_absent.
Qed.

(** ** [action_bookmark] *)

Lemma try_except_unfold {A} (m : M A) handled h w :
  try_except m handled h w =
  match m w with
  | (Raise e, w') => if handled e then h e w' else (Raise e, w')
  | r => r
  end.
Proof. reflexivity. Qed.

Lemma action_bookmark_already channel member target title sent posted w :
  message_id target ∈ bookmarks_of w (member_id member) →
  action_bookmark channel member target title sent posted w =
  (outcome_of posted,
   record (ChannelSend channel (ErrorEmbed (already_bookmarked_text member)) posted) w).
Proof.
  intros Hin. unfold action_bookmark.
  rewrite bind_unfold, try_except_unfold, bind_unfold.
  rewrite maybe_send_bookmark_already by done.
  cbn. by destruct posted.
Qed.

Lemma action_bookmark_forbidden channel member target title posted w :
  message_id target ∉ bookmarks_of w (member_id member) →
  action_bookmark channel member target title (Raises Forbidden) posted w =
  (outcome_of posted,
   record (ChannelSend channel (ErrorEmbed (enable_dms_text member)) posted)
     (record (MemberSend (member_id member) (build_bookmark_dm target title) (Raises Forbidden)) w)).
Proof.
  intros Hin. unfold action_bookmark.
  rewrite bind_unfold, try_except_unfold, bind_unfold.
  rewrite maybe_send_bookmark_refused by done.
  cbn. by destruct posted.
Qed.

Lemma action_bookmark_delivered channel member target title dm posted w :
  message_id target ∉ bookmarks_of w (member_id member) →
  action_bookmark channel member target title (Returns dm) posted w =
  (Ok tt, (update_member_bookmarked_messages member (message_id dm) add
             (record (MemberSend (member_id member) (build_bookmark_dm target title) (Returns dm)) w)).2).
Proof.
  intros Hin. unfold action_bookmark.
  rewrite bind_unfold, try_except_unfold, bind_unfold.
  by rewrite maybe_send_bookmark_delivered by done.
Qed.

(** [member.send] raises [e]: the two handled exceptions become an error
    embed in the channel, any other one propagates. *)
Lemma action_bookmark_refused channel member target title e posted w :
  message_id target ∉ bookmarks_of w (member_id member) →
  action_bookmark channel member target title (Raises e) posted w =
  let w1 := record (MemberSend (member_id member) (build_bookmark_dm target title) (Raises e)) w in
  match e with
  | Forbidden =>
      (outcome_of posted, record (ChannelSend channel (ErrorEmbed (enable_dms_text member)) posted) w1)
  | AlreadyBookmarkedError =>
      (outcome_of posted, record (ChannelSend channel (ErrorEmbed (already_bookmarked_text member)) posted) w1)
  | _ => (Raise e, w1)
  end.
Proof.
  intros Hin. unfold action_bookmark.
  rewrite bind_unfold, try_except_unfold, bind_unfold.
  rewrite maybe_send_bookmark_refused by done.
  destruct e; cbn; try done; by destruct posted.
Qed.

(** What a call of [action_bookmark] adds to the trace, and that it brings
    no new id into the cache. *)
Lemma action_bookmark_spec channel member target title sent posted w :
  ∃ evs, trace (action_bookmark channel member target title sent posted w).2 = trace w ++ evs ∧
         Forall (λ ev, match ev with MemberSend _ _ _ | ChannelSend _ _ _ => True | _ => False end) evs ∧
         no_new_ids w (action_bookmark channel member target title sent posted w).2 ∧
         (action_bookmark channel member target title sent posted w).1 ≠ OutOfFuel.
Proof.
  destruct (decide (message_id target ∈ bookmarks_of w (member_id member))) as [Hin|Hin].
  { rewrite action_bookmark_already by done. eexists. split; [done|].
    repeat split; [by repeat constructor|apply no_new_ids_record|by destruct posted]. }
  destruct sent as [dm|e].
  - rewrite action_bookmark_delivered by done. cbn [fst snd].
    destruct (update_spec member (message_id dm) add
      (record (MemberSend (member_id member) (build_bookmark_dm target title) (Returns dm)) w))
      as (w' & -> & Ht & Hids). cbn [snd]. rewrite Ht. eexists. split; [done|].
    repeat split; [by repeat constructor|done..].
  - rewrite action_bookmark_refused by done.
    destruct e; cbn; eexists;
      (split; [try done; by rewrite <- app_assoc|]);
      (repeat split; [by repeat constructor|by intros k x|try done; by destruct posted]).
Qed.

(** ** [delete_bookmark] *)

Lemma delete_bookmark_resolved ctx given msg deleted w :
  resolve ctx given = Some msg →
  message_channel msg = ctx_channel ctx →
  delete_bookmark ctx given deleted w =
  (platform (MessageDelete (message_id msg)) deleted;;
   update_member_bookmarked_messages (ctx_author ctx) (message_id msg) remove) w.
Proof.
  intros Hres Hch. unfold delete_bookmark. rewrite (resolve_Some _ _ _ Hres).
  by rewrite decide_False by (by intros Hne).
Qed.

Lemma delete_bookmark_no_new_ids ctx given deleted w :
  no_new_ids w (delete_bookmark ctx given deleted w).2.
Proof.
  unfold delete_bookmark. destruct (target_or_reply ctx given) as [[msg|]|]; [|by intros k x..].
  destruct (decide _); [by intros k x|].
  rewrite bind_unfold, platform_unfold. destruct deleted as [[]|e]; cbn [result_of].
  - destruct (update_spec (ctx_author ctx) (message_id msg) remove
      (record (MessageDelete (message_id msg) (Returns ())) w)) as (w' & -> & _ & Hids).
    done.
  - by intros k x.
Qed.

(** ** [on_command_error] and [invoke] *)

Lemma on_command_error_cache e acked w :
  member_bookmarked_messages (on_command_error e acked w).2 = member_bookmarked_messages w.
Proof. unfold on_command_error. by destruct (is_UserInputError e). Qed.

Lemma invoke_no_new_ids body acked w :
  no_new_ids w (body w).2 → no_new_ids w (invoke body acked w).2.
Proof.
  intros Hbody. unfold invoke. rewrite try_except_unfold.
  destruct (body w) as [[[]|e|] w'] eqn:E; cbn [snd] in *; try done.
  intros k x. unfold bookmarks_of. rewrite on_command_error_cache. apply Hbody.
Qed.

(** ** [wait_for] and [event_check] *)

Lemma wait_for_answer_raises timeout check arrivals e :
  wait_for_answer timeout check arrivals = Raises e → e = TimeoutError.
Proof. unfold wait_for_answer. destruct (find _ _); congruence. Qed.

(** A wait times out exactly when no reaction that passes the check is
    dispatched within [timeout] seconds of its beginning. *)
Lemma wait_for_answer_timeout timeout check arrivals :
  wait_for_answer timeout check arrivals = Raises TimeoutError ↔
  Forall (λ a, 0 ≤ arrival_delay a < timeout →
               check (arrival_reaction a) (arrival_user a) = false) arrivals.
Proof.
  unfold wait_for_answer.
  destruct (find _ arrivals) as [a|] eqn:Hfind.
  - split; [done|]. intros Hall. exfalso.
    apply find_some in Hfind as [Hin Hok].
    apply andb_true_iff in Hok as [Hwin Hchk].
    apply bool_decide_eq_true in Hwin.
    rewrite Forall_forall in Hall.
    apply list_elem_of_In in Hin. rewrite (Hall a Hin Hwin) in Hchk. done.
  - split; [|done]. intros _. apply Forall_forall. intros a Hin Hwin.
    apply list_elem_of_In in Hin.
    pose proof (find_none _ _ Hfind a Hin) as Hno. cbn beta in Hno.
    apply andb_false_iff in Hno as [Hno|Hno]; [|done].
    apply bool_decide_eq_false in Hno. done.
Qed.

(** What a wait returns passed the check, and was dispatched within the
    window. *)
Lemma wait_for_answer_returns timeout check arrivals reaction user :
  wait_for_answer timeout check arrivals = Returns (reaction, user) →
  check reaction user = true ∧
  ∃ a, a ∈ arrivals ∧ arrival_reaction a = reaction ∧ arrival_user a = user ∧
       0 ≤ arrival_delay a < timeout.
Proof.
  unfold wait_for_answer.
  destruct (find _ arrivals) as [a|] eqn:Hfind; [|done].
  intros [= <- <-]. apply find_some in Hfind as [Hin Hok].
  apply andb_true_iff in Hok as [Hwin Hchk].
  apply bool_decide_eq_true in Hwin. apply list_elem_of_In in Hin.
  split; [done|]. by exists a.
Qed.

Lemma event_check_spec self prompt users reaction user :
  event_check self prompt users reaction user = true ↔
  reaction_message_id reaction = message_id prompt ∧
  (member_id user ∉ users) ∧
  reaction_emoji reaction = BOOKMARK_EMOJI ∧
  member_id user ≠ bot_user_id self.
Proof.
  unfold event_check. cbn [forallb id].
  rewrite !andb_true_iff, !bool_decide_eq_true. tauto.
Qed.

(** ** The loop *)

Lemma collecting_unfold fuel self ctx target title prompt turns users w :
  collecting (S fuel) self ctx target title prompt turns users w =
  let w1 := record (WaitFor "reaction_add" TIMEOUT
              (wait_for_answer TIMEOUT (event_check self prompt users) (arrivals (turns O)))) w in
  match wait_for_answer TIMEOUT (event_check self prompt users) (arrivals (turns O)) with
  | Raises _ => (Ok users, w1)
  | Returns (reaction, user) =>
      (action_bookmark (ctx_channel ctx) user target title
         (turn_sent (turns O)) (turn_posted (turns O));;
       platform (ReactionRemove reaction) (turn_removed (turns O));;
       collecting fuel self ctx target title prompt (λ n, turns (S n))
         (users ++ [member_id user])) w1
  end.
Proof.
  cbn [collecting]. rewrite bind_unfold, try_except_unfold, bind_unfold.
  unfold wait_for. rewrite platform_unfold.
  destruct (wait_for_answer _ _ _) as [[reaction user]|e] eqn:Hw; cbn [result_of].
  - reflexivity.
  - apply wait_for_answer_raises in Hw as ->. reflexivity.
Qed.

Lemma collecting_run fuel self ctx target title prompt :
  ∀ turns users w,
  ∃ evs final,
    trace (collecting fuel self ctx target title prompt turns users w).2 = trace w ++ evs ∧
    loop_run self prompt turns users evs final ∧
    (∀ l, (collecting fuel self ctx target title prompt turns users w).1 = Ok l ↔ final = Some l) ∧
    no_new_ids w (collecting fuel self ctx target title prompt turns users w).2.
Proof.
  induction fuel as [|fuel IH]; intros turns users w.
  { exists [], None. cbn. rewrite app_nil_r.
    split_and!; [done|apply loop_starved|done|apply no_new_ids_refl]. }
  rewrite collecting_unfold. cbv zeta.
  destruct (wait_for_answer _ _ _) as [[reaction user]|e] eqn:Hw.
  2: { apply wait_for_answer_raises in Hw as Hw'. subst e.
       exists [WaitFor "reaction_add" TIMEOUT (Raises TimeoutError)], (Some users).
       cbn [fst snd]. split_and!; [done|by apply loop_exit| |apply no_new_ids_record].
       intros l. split; congruence. }
  set (w1 := record _ w).
  rewrite bind_unfold.
  destruct (action_bookmark_spec (ctx_channel ctx) user target title
              (turn_sent (turns O)) (turn_posted (turns O)) w1)
    as (evs1 & Ht1 & Hev1 & Hids1 & Hfuel1).
  assert (Hpass1 : Forall pass_event evs1).
  { eapply Forall_impl; [exact Hev1|]. by intros []. }
  assert (Hids01 : no_new_ids w
            (action_bookmark (ctx_channel ctx) user target title
               (turn_sent (turns O)) (turn_posted (turns O)) w1).2).
  { eapply no_new_ids_trans; [apply no_new_ids_record|exact Hids1]. }
  destruct (action_bookmark _ _ _ _ _ _ w1) as [[[]|e1|] w2] eqn:E1;
    cbn [fst snd] in *; [|clear IH|done].
  2: { exists (WaitFor "reaction_add" TIMEOUT (Returns (reaction, user)) :: evs1), None.
       rewrite Ht1. subst w1. cbn [record trace]. rewrite <- app_assoc.
       split_and!; [done|by apply loop_abort|done|done]. }
  rewrite bind_unfold, platform_unfold.
  destruct (turn_removed (turns O)) as [[]|e2] eqn:E2; cbn [result_of].
  2: { exists (WaitFor "reaction_add" TIMEOUT (Returns (reaction, user))
                 :: evs1 ++ [ReactionRemove reaction (Raises e2)]), None.
       cbn [fst snd record trace]. rewrite Ht1. subst w1. cbn [record trace].
       rewrite <- !app_assoc. split_and!; [done| |done|].
       - apply loop_abort; [done|]. apply Forall_app. split; [done|]. by repeat constructor.
       - eapply no_new_ids_trans; [exact Hids01|apply no_new_ids_record]. }
  set (w3 := record _ w2).
  destruct (IH (λ n, turns (S n)) (users ++ [member_id user]) w3)
    as (evs & final & Ht & Hrun & Hres & Hids).
  exists (WaitFor "reaction_add" TIMEOUT (Returns (reaction, user))
            :: (evs1 ++ [ReactionRemove reaction (Returns ())]) ++ evs), final.
  rewrite Ht. subst w3. cbn [record trace]. rewrite Ht1. subst w1. cbn [record trace].
  rewrite <- !app_assoc. split_and!; [done| |exact Hres|].
  - rewrite app_assoc. apply loop_pass; [done| |done].
    apply Forall_app. split; [done|]. by repeat constructor.
  - eapply no_new_ids_trans; [|exact Hids].
    eapply no_new_ids_trans; [exact Hids01|apply no_new_ids_record].
Qed.

(** *** What the shape of a run entails *)

Lemma accepted_app t1 t2 : accepted (t1 ++ t2) = accepted t1 ++ accepted t2.
Proof. apply omap_app. Qed.

Lemma timed_out_app t1 t2 : timed_out (t1 ++ t2) = timed_out t1 ++ timed_out t2.
Proof. apply omap_app. Qed.

Lemma deletions_app t1 t2 : deletions (t1 ++ t2) = deletions t1 ++ deletions t2.
Proof. apply omap_app. Qed.

Lemma accepted_wait_returns name timeout reaction user t :
  accepted (WaitFor name timeout (Returns (reaction, user)) :: t) = member_id user :: accepted t.
Proof. reflexivity. Qed.

Lemma timed_out_wait_returns name timeout got t :
  timed_out (WaitFor name timeout (Returns got) :: t) = timed_out t.
Proof. reflexivity. Qed.

Lemma deletions_wait name timeout a t :
  deletions (WaitFor name timeout a :: t) = deletions t.
Proof. reflexivity. Qed.

Lemma pass_projections pass :
  Forall pass_event pass →
  accepted pass = [] ∧ timed_out pass = [] ∧ deletions pass = [].
Proof.
  induction 1 as [|ev pass Hev _ (IHa & IHt & IHd)]; [done|].
  destruct ev; try done; cbn; by rewrite ?IHa, ?IHt, ?IHd.
Qed.

Lemma pass_event_not_wait ev : pass_event ev → ¬ is_wait ev.
Proof. destruct ev; cbn; tauto. Qed.

Lemma quiet_accepted quiet :
  Forall (λ ev, ¬ is_wait ev) quiet → accepted quiet = [].
Proof.
  induction 1 as [|ev quiet Hev _ IH]; [done|].
  destruct ev; done.
Qed.

Section loop_run_facts.
Context (self : Bookmark) (prompt : Message).

(** Nobody is accepted twice, and nobody claimed at first is accepted. *)
Lemma loop_run_accepted turns users evs final :
  loop_run self prompt turns users evs final →
  NoDup users → NoDup (users ++ accepted evs).
Proof.
  induction 1 as [turns users Hw|turns users reaction user pass rest final Hw Hpass _ IH
                 |turns users reaction user pass Hw Hpass|turns users];
    intros Hnd.
  - cbn. by rewrite app_nil_r.
  - destruct (pass_projections pass Hpass) as (Ha & _ & _).
    apply wait_for_answer_returns in Hw as [Hchk _].
    apply event_check_spec in Hchk as (_ & Hfresh & _ & _).
    rewrite accepted_wait_returns, accepted_app, Ha. cbn [app].
    replace (users ++ member_id user :: accepted rest)
      with ((users ++ [member_id user]) ++ accepted rest) by (by rewrite <- app_assoc).
    apply IH. apply NoDup_app. split_and!; [done| |apply NoDup_singleton].
    intros x Hx ->%list_elem_of_singleton. done.
  - destruct (pass_projections pass Hpass) as (Ha & _ & _).
    apply wait_for_answer_returns in Hw as [Hchk _].
    apply event_check_spec in Hchk as (_ & Hfresh & _ & _).
    rewrite accepted_wait_returns, Ha.
    apply NoDup_app. split_and!; [done| |apply NoDup_singleton].
    intros x Hx ->%list_elem_of_singleton. done.
  - cbn. by rewrite app_nil_r.
Qed.

End loop_run_facts.

(** What an invocation of [bookmark] adds to the trace: calls that are no
    waits, then, if the prompt was posted, a run of the loop that starts
    with the author claimed, then at most the deletion of the prompt. *)
Lemma bookmark_run fuel self ctx given title p w :
  ∃ evs, trace (bookmark fuel self ctx given title p w).2 = trace w ++ evs ∧
    no_new_ids w (bookmark fuel self ctx given title p w).2 ∧
    (Forall (λ ev, ¬ is_wait ev) evs ∨
     ∃ prompt quiet loop final tail,
       prompt_posted p = Returns prompt ∧
       Forall (λ ev, ¬ is_wait ev) quiet ∧
       loop_run self prompt (turns p) [member_id (ctx_author ctx)] loop final ∧
       Forall (λ ev, ¬ is_wait ev) tail ∧
       evs = quiet ++ loop ++ tail).
Proof.
  unfold bookmark. destruct (target_or_reply ctx given) as [[target|]|].
  2,3: exists []; cbn; rewrite app_nil_r;
       split_and!; [done|apply no_new_ids_refl|by left].
  destruct (read_messages p); cbn [negb].
  2: { rewrite bind_unfold, platform_unfold.
       destruct (denial_posted p); eexists [_]; cbn;
         (split_and!; [reflexivity|by intros k x|left; quiet_events]). }
  rewrite bind_unfold.
  destruct (action_bookmark_spec (ctx_channel ctx) (ctx_author ctx) target title
              (author_sent p) (author_posted p) w) as (evs1 & Ht1 & Hev1 & Hids1 & _).
  assert (Hq1 : Forall (λ ev, ¬ is_wait ev) evs1).
  { eapply Forall_impl; [exact Hev1|]. intros []; cbn; tauto. }
  destruct (action_bookmark _ _ _ _ _ _ w) as [[[]|e1|] w1]; cbn [fst snd] in *.
  2,3: exists evs1; split_and!; [done|done|by left].
  rewrite bind_unfold, platform_unfold.
  set (prompt_embed := ReactionEmbed _).
  set (ev2 := ChannelSend (ctx_channel ctx) prompt_embed (prompt_posted p)).
  destruct (prompt_posted p) as [prompt|e2] eqn:Hprompt; cbn [result_of].
  2: { exists (evs1 ++ [ev2]). cbn [snd record trace]. rewrite Ht1, <- app_assoc.
       split_and!; [done| |left].
       - eapply no_new_ids_trans; [exact Hids1|apply no_new_ids_record].
       - apply Forall_app. split; [done|]. subst ev2. quiet_events. }
  rewrite bind_unfold, platform_unfold.
  set (ev3 := AddReaction (message_id prompt) BOOKMARK_EMOJI (reaction_added p)).
  assert (Hq3 : Forall (λ ev, ¬ is_wait ev) (evs1 ++ [ev2; ev3])).
  { apply Forall_app. split; [done|]. subst ev2 ev3. quiet_events. }
  destruct (reaction_added p) as [[]|e3] eqn:Hadded; cbn [result_of].
  2: { exists (evs1 ++ [ev2; ev3]). cbn [snd record trace]. rewrite Ht1, <- !app_assoc.
       split_and!; [done| |by left].
       eapply no_new_ids_trans; [exact Hids1|]. by intros k x. }
  set (w3 := record ev3 (record ev2 w1)).
  assert (Ht3 : trace w3 = trace w ++ evs1 ++ [ev2; ev3]).
  { subst w3. cbn [record trace]. by rewrite Ht1, <- !app_assoc. }
  assert (Hids3 : no_new_ids w w3).
  { eapply no_new_ids_trans; [exact Hids1|]. by intros k x. }
  rewrite bind_unfold.
  destruct (collecting_run fuel self ctx target title prompt (turns p)
              [member_id (ctx_author ctx)] w3) as (loop & final & Ht & Hrun & _ & Hids).
  destruct (collecting _ _ _ _ _ _ _ _ w3) as [[l|e4|] w4]; cbn [fst snd] in *.
  - rewrite platform_unfold. cbn [snd record trace].
    exists ((evs1 ++ [ev2; ev3]) ++ loop
            ++ [MessageDelete (message_id prompt) (prompt_deleted p)]).
    split_and!.
    + by rewrite Ht, Ht3, <- !app_assoc.
    + eapply no_new_ids_trans; [exact Hids3|].
      eapply no_new_ids_trans; [exact Hids|apply no_new_ids_record].
    + right. exists prompt, (evs1 ++ [ev2; ev3]), loop, final,
        [MessageDelete (message_id prompt) (prompt_deleted p)].
      split_and!; [done|done|done|quiet_events|done].
  - exists ((evs1 ++ [ev2; ev3]) ++ loop ++ []).
    split_and!.
    + by rewrite Ht, Ht3, app_nil_r, <- !app_assoc.
    + by eapply no_new_ids_trans.
    + right. exists prompt, (evs1 ++ [ev2; ev3]), loop, final, [].
      split_and!; [done|done|done|quiet_events|done].
  - exists ((evs1 ++ [ev2; ev3]) ++ loop ++ []).
    split_and!.
    + by rewrite Ht, Ht3, app_nil_r, <- !app_assoc.
    + by eapply no_new_ids_trans.
    + right. exists prompt, (evs1 ++ [ev2; ev3]), loop, final, [].
      split_and!; [done|done|done|quiet_events|done].
Qed.

(** Past the prompt, [bookmark] is the loop, started with the author
    claimed, followed by the deletion of the prompt. *)
Lemma bookmark_reaches_collecting fuel self ctx given target title p prompt w w1 :
  resolve ctx given = Some target →
  read_messages p = true →
  action_bookmark (ctx_channel ctx) (ctx_author ctx) target title
    (author_sent p) (author_posted p) w = (Ok tt, w1) →
  prompt_posted p = Returns prompt →
  reaction_added p = Returns tt →
  bookmark fuel self ctx given title p w =
  (collecting fuel self ctx target title prompt (turns p) [member_id (ctx_author ctx)];;
   platform (MessageDelete (message_id prompt)) (prompt_deleted p))
    (record (AddReaction (message_id prompt) BOOKMARK_EMOJI (Returns tt))
       (record (ChannelSend (ctx_channel ctx)
                  (ReactionEmbed
                     ("React with " +:+ BOOKMARK_EMOJI
                      +:+ " to be sent your very own bookmark to [this message]("
                      +:+ ctx_message_jump_url ctx +:+ ")."))
                  (Returns prompt)) w1)).
Proof.
  intros Hres Hread Hact Hprompt Hadded. unfold bookmark.
  rewrite (resolve_Some _ _ _ Hres), Hread. cbn [negb].
  rewrite bind_unfold, Hact, bind_unfold, platform_unfold, Hprompt. cbn [result_of].
  by rewrite bind_unfold, platform_unfold, Hadded.
Qed.

(** ** Delivery and the cache *)

(** Whenever [maybe_send_bookmark] returns, the target's id is not in the
    member's list: it was not there before, and no call puts it there. *)
Lemma maybe_send_bookmark_never_records target title member sent dm w :
  (maybe_send_bookmark target title member sent w).1 = Ok dm →
  message_id target ∉ bookmarks_of (maybe_send_bookmark target title member sent w).2
                        (member_id member).
Proof.
  intros Hok. rewrite maybe_send_bookmark_same_ids. intros Hin.
  by rewrite maybe_send_bookmark_already in Hok.
Qed.

(** So a bookmark of the same message for the same member goes through
    again. *)
Lemma maybe_send_bookmark_again target title member sent dm dm' w :
  (maybe_send_bookmark target title member sent w).1 = Ok dm →
  (maybe_send_bookmark target title member (Returns dm')
     (maybe_send_bookmark target title member sent w).2).1 = Ok dm'.
Proof.
  intros Hok. by rewrite maybe_send_bookmark_delivered
    by by eapply maybe_send_bookmark_never_records.
Qed.

(** C1 (the code departs from the claim).  Alice, whose cache entry is
    absent, bookmarks message 100 and the DM, message 500, is delivered:
    [maybe_send_bookmark] returns the DM and her list is still empty, the
    id of the bookmarked message is not in it. *)
Theorem delivered_bookmark_is_not_recorded :
  maybe_send_bookmark msgX "Bookmark" alice (Returns dm1) w0 =
    (Ok dm1, record (MemberSend 1 (build_bookmark_dm msgX "Bookmark") (Returns dm1)) w0) ∧
  bookmarks_of (maybe_send_bookmark msgX "Bookmark" alice (Returns dm1) w0).2
    (member_id alice) = [] ∧
  message_id msgX ∉
    bookmarks_of (maybe_send_bookmark msgX "Bookmark" alice (Returns dm1) w0).2
      (member_id alice).
Proof.
  assert (Hfresh : message_id msgX ∉ bookmarks_of w0 (member_id alice)).
  { apply not_elem_of_nil. }
  rewrite maybe_send_bookmark_delivered by done.
  rewrite update_absent by apply not_elem_of_nil.
  split_and!; [done|done|apply not_elem_of_nil].
Qed.

(** C2 (the code departs from the claim).  After that delivery, Alice
    bookmarks message 100 again with no delete in between: the second call
    does not raise [AlreadyBookmarkedError], it sends a second DM and
    returns it. *)
Theorem second_bookmark_is_delivered_again :
  let w1 := (maybe_send_bookmark msgX "Bookmark" alice (Returns dm1) w0).2 in
  (maybe_send_bookmark msgX "Bookmark" alice (Returns dm1) w0).1 = Ok dm1 ∧
  (maybe_send_bookmark msgX "Bookmark" alice (Returns dm2) w1).1 = Ok dm2 ∧
  (maybe_send_bookmark msgX "Bookmark" alice (Returns dm2) w1).1
    ≠ Raise AlreadyBookmarkedError ∧
  delivered (trace (maybe_send_bookmark msgX "Bookmark" alice (Returns dm2) w1).2)
    = [(1, dm1); (1, dm2)].
Proof.
  cbv zeta.
  assert (Hfresh : message_id msgX ∉ bookmarks_of w0 (member_id alice)).
  { apply not_elem_of_nil. }
  rewrite (maybe_send_bookmark_delivered msgX "Bookmark" alice dm1 w0) by done.
  rewrite update_absent by apply not_elem_of_nil. cbn [fst snd].
  rewrite maybe_send_bookmark_delivered by apply not_elem_of_nil.
  rewrite update_absent by apply not_elem_of_nil.
  split_and!; done.
Qed.

(** C8.  A member whose DMs are closed ([member.send] raises [Forbidden])
    gets no DM: [action_bookmark] posts an error embed in the invoking
    channel, as its last call, and leaves the whole cache as it was. *)
Theorem closed_dms_post_an_error_embed channel member target title posted w :
  let w' := (action_bookmark channel member target title (Raises Forbidden) posted w).2 in
  member_bookmarked_messages w' = member_bookmarked_messages w ∧
  (action_bookmark channel member target title (Raises Forbidden) posted w).1
    = outcome_of posted ∧
  ∃ evs,
    trace w' = trace w ++ evs ∧
    delivered evs = [] ∧
    evs = (if decide (message_id target ∈ bookmarks_of w (member_id member))
           then []
           else [MemberSend (member_id member) (build_bookmark_dm target title)
                   (Raises Forbidden)])
          ++ [ChannelSend channel
                (build_error_embed
                   (if decide (message_id target ∈ bookmarks_of w (member_id member))
                    then already_bookmarked_text member
                    else enable_dms_text member))
                posted].
Proof.
  cbv zeta.
  destruct (decide (message_id target ∈ bookmarks_of w (member_id member))) as [Hin|Hin].
  - rewrite action_bookmark_already by done. split_and!; [done|done|].
    exists [ChannelSend channel (build_error_embed (already_bookmarked_text member)) posted].
    split_and!; done.
  - rewrite action_bookmark_forbidden by done. split_and!; [done|done|].
    exists [MemberSend (member_id member) (build_bookmark_dm target title) (Raises Forbidden);
            ChannelSend channel (build_error_embed (enable_dms_text member)) posted].
    split_and!; [|done|done]. cbn. by rewrite <- app_assoc.
Qed.

(** C9.  [bookmark delete] on a message of the author's DM channel whose id
    is not in the author's list, the deletion going through: the command
    returns, its one call is the deletion of the message, and the cache,
    the author's entry and everybody else's, is as it was. *)
Theorem delete_of_unlisted_message_is_a_no_op ctx given msg w :
  resolve ctx given = Some msg →
  message_channel msg = ctx_channel ctx →
  message_id msg ∉ bookmarks_of w (member_id (ctx_author ctx)) →
  (delete_bookmark ctx given (Returns tt) w).1 = Ok tt ∧
  trace (delete_bookmark ctx given (Returns tt) w).2
    = trace w ++ [MessageDelete (message_id msg) (Returns tt)] ∧
  member_bookmarked_messages (delete_bookmark ctx given (Returns tt) w).2
    = member_bookmarked_messages w.
Proof.
  intros Hres Hch Hout.
  rewrite (delete_bookmark_resolved ctx given msg) by done.
  rewrite bind_unfold, platform_unfold. cbn [result_of].
  by rewrite update_absent.
Qed.

(** C9 for Alice deleting DM 500, which her list does not hold. *)
Lemma delete_of_unlisted_message_witness :
  (delete_bookmark ctx11 (Some dm1) (Returns tt) w_seeded).1 = Ok tt ∧
  trace (delete_bookmark ctx11 (Some dm1) (Returns tt) w_seeded).2
    = trace w_seeded ++ [MessageDelete (message_id dm1) (Returns tt)] ∧
  member_bookmarked_messages (delete_bookmark ctx11 (Some dm1) (Returns tt) w_seeded).2
    = member_bookmarked_messages w_seeded.
Proof.
  apply (delete_of_unlisted_message_is_a_no_op ctx11 (Some dm1) dm1 w_seeded).
  - reflexivity.
  - reflexivity.
  - intros Hin. apply list_elem_of_singleton in Hin. discriminate Hin.
Defined.

(** ** Sequences of commands *)

Lemma bookmark_no_new_ids fuel self ctx given title p w :
  no_new_ids w (bookmark fuel self ctx given title p w).2.
Proof. by destruct (bookmark_run fuel self ctx given title p w) as (_ & _ & ? & _). Qed.

Lemma run_invocation_no_new_ids w i : no_new_ids w (run_invocation w i).
Proof.
  destruct i; cbn [run_invocation]; apply invoke_no_new_ids.
  - apply bookmark_no_new_ids.
  - apply delete_bookmark_no_new_ids.
Qed.

Lemma run_invocations_no_new_ids invs w : no_new_ids w (run_invocations invs w).
Proof.
  revert w. induction invs as [|i invs IH]; intros w; [apply no_new_ids_refl|].
  eapply no_new_ids_trans; [apply run_invocation_no_new_ids|apply IH].
Qed.

(** C3.  From an entry that is absent or empty, no sequence of [bookmark]
    and [bookmark delete] invocations, whatever the platform answers, leads
    to a list with the same id twice.  (No invocation brings an id into a
    list that did not hold it, so the list is in fact still empty.) *)
Theorem no_duplicate_bookmarks m invs w :
  bookmarks_of w m = [] →
  NoDup (bookmarks_of (run_invocations invs w) m).
Proof.
  intros Hempty.
  assert (bookmarks_of (run_invocations invs w) m = []) as ->; [|apply NoDup_nil_2].
  destruct (bookmarks_of (run_invocations invs w) m) as [|x l] eqn:E; [done|].
  exfalso. pose proof (run_invocations_no_new_ids invs w m x) as Hx.
  rewrite E, Hempty in Hx. eapply not_elem_of_nil, Hx. by left.
Qed.

(** C3 for Alice over a bookmark, a delete of the DM, and a bookmark of the
    same message again. *)
Lemma no_duplicate_bookmarks_witness :
  bookmarks_of w0 1 = [] ∧
  NoDup (bookmarks_of
           (run_invocations
              [invoke_bookmark 3 cog ctx7 (Some msgX) "Bookmark" session (Returns tt);
               invoke_delete_bookmark ctx11 (Some dm1) (Returns tt) (Returns tt);
               invoke_bookmark 3 cog ctx7 (Some msgX) "Bookmark" session (Returns tt)]
              w0) 1).
Proof.
  split; [reflexivity|].
  apply (no_duplicate_bookmarks 1). reflexivity.
Defined.

(** ** [close] *)

(** C4, as the code has it.  [close] closes the event client, then the
    HTTP session if there is one, then the Redis session if there is one,
    in this order; a close that raises ends [close] with its exception, and
    the closes after it are not attempted. *)
Theorem close_stops_at_first_failure self client_closed http_closed redis_closed w :
  let r := close self client_closed http_closed redis_closed w in
  member_bookmarked_messages r.2 = member_bookmarked_messages w ∧
  match client_closed with
  | Raises e => r.1 = Raise e ∧ trace r.2 = trace w ++ [SuperClose client_closed]
  | Returns _ =>
      match http_session self, http_closed with
      | true, Raises e =>
          r.1 = Raise e ∧
          trace r.2 = trace w ++ [SuperClose client_closed; HttpSessionClose http_closed]
      | _, _ =>
          r.1 = (if redis_session self then result_of redis_closed else Ok tt) ∧
          trace r.2 = trace w ++ SuperClose client_closed
                        :: attached_closes self http_closed redis_closed
      end
  end.
Proof.
  cbv zeta. unfold close, attached_closes.
  destruct self as [[] []], client_closed as [[]|e], http_closed as [[]|e1],
    redis_closed as [[]|e2];
    repeat (rewrite ?bind_unfold, ?platform_unfold; cbn);
    rewrite <- ?app_assoc; done.
Qed.

(** C4, as the claim has it, fails: with both sessions attached, the close
    of the event client raises, and neither the HTTP session nor the Redis
    session is closed; [close] ends with the exception. *)
Lemma close_skips_later_closes :
  close {| http_session := true; redis_session := true |}
    (Raises (OtherException "ConnectionResetError")) (Returns tt) (Returns tt) w0
  = (Raise (OtherException "ConnectionResetError"),
     {| member_bookmarked_messages := ∅;
        trace := [SuperClose (Raises (OtherException "ConnectionResetError"))] |}).
Proof. reflexivity. Qed.

(** ** [event_check] *)

(** C5.  [event_check] accepts a reaction exactly when it is on the prompt,
    its user is not in the claimed list, its emoji is the pushpin and its
    user is not the bot; so a claimed user is rejected whatever the emoji
    and the message, and what a wait of the loop returns passed all four. *)
Theorem event_check_accepts_iff self prompt users reaction user :
  (event_check self prompt users reaction user = true ↔
     reaction_message_id reaction = message_id prompt ∧
     (member_id user ∉ users) ∧
     reaction_emoji reaction = "📌" ∧
     member_id user ≠ bot_user_id self) ∧
  (member_id user ∈ users → event_check self prompt users reaction user = false) ∧
  (∀ timeout arrivals,
     wait_for_answer timeout (event_check self prompt users) arrivals
       = Returns (reaction, user) →
     event_check self prompt users reaction user = true).
Proof.
  split_and!.
  - apply event_check_spec.
  - intros Hin. apply not_true_is_false. intros Hchk.
    apply event_check_spec in Hchk as (_ & Hout & _). done.
  - intros timeout arrivals Hw. by apply wait_for_answer_returns in Hw as [? _].
Qed.

(** C5 at a claimed user: Alice's pushpin on the prompt is rejected. *)
Lemma event_check_accepts_iff_witness :
  member_id alice ∈ [1] ∧ event_check cog prompt600 [1] pin600 alice = false.
Proof.
  split; [by left|].
  apply (event_check_accepts_iff cog prompt600 [1] pin600 alice). by left.
Defined.

(** ** [reaction.remove] without its user *)

(** One pass of the loop when [reaction.remove] raises.  Either the wait
    times out and the loop returns the list it was given, or a reaction is
    accepted and the pass ends the loop with an exception: no later wait is
    made, and the list is handed to nobody. *)
Lemma collecting_when_remove_raises fuel self ctx target title prompt turns users w e :
  turn_removed (turns O) = Raises e →
  ∃ evs,
    trace (collecting (S fuel) self ctx target title prompt turns users w).2
      = trace w ++ evs ∧
    deletions evs = [] ∧
    ((collecting (S fuel) self ctx target title prompt turns users w).1 = Ok users ∧
     accepted evs = [] ∧ timed_out evs = [TIMEOUT]
     ∨
     (∃ e', (collecting (S fuel) self ctx target title prompt turns users w).1 = Raise e') ∧
     (∃ user, accepted evs = [member_id user]) ∧ timed_out evs = []).
Proof.
  intros Hrem. rewrite collecting_unfold. cbv zeta.
  destruct (wait_for_answer TIMEOUT (event_check self prompt users) (arrivals (turns O)))
    as [[reaction user]|e0] eqn:Hw.
  2: { apply wait_for_answer_raises in Hw as ->.
       eexists [_]. split_and!; [done|done|left; by split_and!]. }
  set (w1 := record _ w). rewrite bind_unfold.
  destruct (action_bookmark_spec (ctx_channel ctx) user target title
              (turn_sent (turns O)) (turn_posted (turns O)) w1)
    as (evs & Ht & Hev & _ & Hfuel).
  assert (Hpass : Forall pass_event evs).
  { eapply Forall_impl; [exact Hev|]. by intros []. }
  destruct (pass_projections evs Hpass) as (Ha & Hto & Hd).
  destruct (action_bookmark _ _ _ _ _ _ w1) as [[[]|e1|] w2]; cbn [fst snd] in *; [| |done].
  - rewrite bind_unfold, platform_unfold, Hrem. cbn [result_of fst snd record trace].
    rewrite Ht. subst w1. cbn [record trace].
    exists (WaitFor "reaction_add" TIMEOUT (Returns (reaction, user))
              :: evs ++ [ReactionRemove reaction (Raises e)]).
    split_and!.
    + by rewrite <- !app_assoc.
    + by rewrite deletions_wait, deletions_app, Hd.
    + right. split_and!; [by eexists|exists user|].
      * by rewrite accepted_wait_returns, accepted_app, Ha.
      * by rewrite timed_out_wait_returns, timed_out_app, Hto.
  - rewrite Ht. subst w1. cbn [record trace].
    exists (WaitFor "reaction_add" TIMEOUT (Returns (reaction, user)) :: evs).
    split_and!.
    + by rewrite <- !app_assoc.
    + by rewrite deletions_wait.
    + right. split_and!; [by eexists|exists user|].
      * by rewrite accepted_wait_returns, Ha.
      * by rewrite timed_out_wait_returns.
Qed.

(** With the call as written, the list the loop returns is the list it was
    started with: the line after [reaction.remove], which appends the
    reacting user, is never run. *)
Lemma claimed_set_never_grows fuel self ctx target title prompt turns users w l :
  as_written turns →
  (collecting fuel self ctx target title prompt turns users w).1 = Ok l →
  l = users.
Proof.
  intros Hwritten. destruct fuel as [|fuel]; [done|].
  destruct (collecting_when_remove_raises fuel self ctx target title prompt turns users w
              _ (Hwritten O)) as (evs & _ & _ & [(-> & _)|((e' & ->) & _)]); [|done].
  by intros [= ->].
Qed.

(** An invocation of [bookmark] when [reaction.remove] raises in the first
    pass: as soon as a reaction is accepted the command ends with an
    exception, it waits no more and it never deletes its prompt. *)
Lemma bookmark_when_remove_raises fuel self ctx given title p w e :
  turn_removed (turns p O) = Raises e →
  ∃ evs,
    trace (bookmark fuel self ctx given title p w).2 = trace w ++ evs ∧
    (accepted evs = []
     ∨
     (∃ e', (bookmark fuel self ctx given title p w).1 = Raise e') ∧
     (∃ user, accepted evs = [member_id user]) ∧
     timed_out evs = [] ∧ deletions evs = []).
Proof.
  intros Hrem. unfold bookmark.
  destruct (target_or_reply ctx given) as [[target|]|].
  2,3: exists []; cbn; rewrite app_nil_r; split; [done|by left].
  destruct (read_messages p); cbn [negb].
  2: { rewrite bind_unfold, platform_unfold.
       destruct (denial_posted p); eexists [_]; cbn; (split; [reflexivity|by left]). }
  rewrite bind_unfold.
  destruct (action_bookmark_spec (ctx_channel ctx) (ctx_author ctx) target title
              (author_sent p) (author_posted p) w) as (evs1 & Ht1 & Hev1 & _ & _).
  assert (Hpass : Forall pass_event evs1).
  { eapply Forall_impl; [exact Hev1|]. by intros []. }
  destruct (pass_projections evs1 Hpass) as (Ha1 & Hto1 & Hd1).
  destruct (action_bookmark _ _ _ _ _ _ w) as [[[]|e1|] w1]; cbn [fst snd] in *.
  2,3: exists evs1; split; [done|by left].
  rewrite bind_unfold, platform_unfold.
  set (ev2 := ChannelSend (ctx_channel ctx) _ (prompt_posted p)).
  destruct (prompt_posted p) as [prompt|e2] eqn:Hprompt; cbn [result_of].
  2: { exists (evs1 ++ [ev2]). cbn [snd record trace]. rewrite Ht1, <- app_assoc.
       split; [done|left]. by rewrite accepted_app, Ha1. }
  rewrite bind_unfold, platform_unfold.
  set (ev3 := AddReaction (message_id prompt) BOOKMARK_EMOJI (reaction_added p)).
  destruct (reaction_added p) as [[]|e3] eqn:Hadded; cbn [result_of].
  2: { exists (evs1 ++ [ev2; ev3]). cbn [snd record trace]. rewrite Ht1, <- !app_assoc.
       split; [done|left]. by rewrite accepted_app, Ha1. }
  set (w3 := record ev3 (record ev2 w1)).
  assert (Ht3 : trace w3 = trace w ++ evs1 ++ [ev2; ev3]).
  { subst w3. cbn [record trace]. by rewrite Ht1, <- !app_assoc. }
  rewrite bind_unfold.
  destruct fuel as [|fuel].
  { exists (evs1 ++ [ev2; ev3]). cbn [collecting fst snd]. split; [exact Ht3|left].
    by rewrite accepted_app, Ha1. }
  destruct (collecting_when_remove_raises fuel self ctx target title prompt (turns p)
              [member_id (ctx_author ctx)] w3 e Hrem)
    as (evs & Ht & Hd & [(Hok & Ha & _)|((e' & Hraise) & Hacc & Hto)]).
  - destruct (collecting _ _ _ _ _ _ _ _ w3) as [r w4]; cbn [fst snd] in *. subst r.
    rewrite platform_unfold. cbn [snd record trace].
    exists ((evs1 ++ [ev2; ev3]) ++ evs ++ [MessageDelete (message_id prompt) (prompt_deleted p)]).
    split; [by rewrite Ht, Ht3, <- !app_assoc|left].
    by rewrite !accepted_app, Ha1, Ha.
  - destruct (collecting _ _ _ _ _ _ _ _ w3) as [r w4]; cbn [fst snd] in *. subst r.
    cbn [fst snd]. exists ((evs1 ++ [ev2; ev3]) ++ evs).
    split; [by rewrite Ht, Ht3, <- !app_assoc|right].
    split_and!; [by eexists| | |].
    + destruct Hacc as [user Hacc]. exists user. by rewrite !accepted_app, Ha1, Hacc.
    + by rewrite !timed_out_app, Hto1, Hto.
    + by rewrite !deletions_app, Hd1, Hd.
Qed.

(** C6 (the code departs from the claim).  Alice bookmarks message 100 and
    Bob reacts to the prompt five seconds into the first wait.  The pass
    that follows reaches [reaction.remove()], which raises [TypeError]: the
    command ends there, having made one wait and no second one, and the
    prompt, message 600, is never deleted.  When nobody reacts, the same
    command waits once for 120 seconds and then deletes the prompt, once. *)
Theorem accepted_reaction_leaves_the_prompt fuel :
  bookmark (S fuel) cog ctx7 (Some msgX) "Bookmark" (session_with bob_reacts_dms_closed) w0
  = (Raise (OtherException "TypeError"),
     {| member_bookmarked_messages := ∅;
        trace :=
          [ MemberSend 1 (build_bookmark_dm msgX "Bookmark") (Returns dm1);
            ChannelSend 7 (prompt_embed ctx7) (Returns prompt600);
            AddReaction 600 BOOKMARK_EMOJI (Returns tt);
            WaitFor "reaction_add" 120 (Returns (pin600, bob));
            MemberSend 2 (build_bookmark_dm msgX "Bookmark") (Raises Forbidden);
            ChannelSend 7
              (build_error_embed "<@2>, please enable your DMs to receive the bookmark.")
              (Returns prompt600);
            ReactionRemove pin600 (Raises (OtherException "TypeError")) ] |}) ∧
  deletions
    (trace (bookmark (S fuel) cog ctx7 (Some msgX) "Bookmark"
              (session_with bob_reacts_dms_closed) w0).2) = [] ∧
  bookmark (S fuel) cog ctx7 (Some msgX) "Bookmark" (session_with nobody_reacts) w0
  = (Ok tt,
     {| member_bookmarked_messages := ∅;
        trace :=
          [ MemberSend 1 (build_bookmark_dm msgX "Bookmark") (Returns dm1);
            ChannelSend 7 (prompt_embed ctx7) (Returns prompt600);
            AddReaction 600 BOOKMARK_EMOJI (Returns tt);
            WaitFor "reaction_add" 120 (Raises TimeoutError);
            MessageDelete 600 (Returns tt) ] |}).
Proof. split_and!; reflexivity. Qed.

(** C10 (the code departs from the claim).  The loop starts with Alice
    claimed and Bob reacts.  Whether his delivery fails (DMs closed) or
    succeeds (DM 501), the pass ends at [reaction.remove()] with
    [TypeError], before the line that appends his id: the loop returns no
    list, and the command is over. *)
Theorem reactor_is_never_claimed fuel :
  collecting (S fuel) cog ctx7 msgX "Bookmark" prompt600
    (turns (session_with bob_reacts_dms_closed)) [member_id alice] w0
  = (Raise (OtherException "TypeError"),
     {| member_bookmarked_messages := ∅;
        trace :=
          [ WaitFor "reaction_add" 120 (Returns (pin600, bob));
            MemberSend 2 (build_bookmark_dm msgX "Bookmark") (Raises Forbidden);
            ChannelSend 7
              (build_error_embed "<@2>, please enable your DMs to receive the bookmark.")
              (Returns prompt600);
            ReactionRemove pin600 (Raises (OtherException "TypeError")) ] |}) ∧
  collecting (S fuel) cog ctx7 msgX "Bookmark" prompt600
    (turns (session_with bob_reacts_dms_open)) [member_id alice] w0
  = (Raise (OtherException "TypeError"),
     {| member_bookmarked_messages := ∅;
        trace :=
          [ WaitFor "reaction_add" 120 (Returns (pin600, bob));
            MemberSend 2 (build_bookmark_dm msgX "Bookmark") (Returns dm2);
            ReactionRemove pin600 (Raises (OtherException "TypeError")) ] |}).
Proof. split; reflexivity. Qed.

(** ** A command without a target *)

Lemma target_or_reply_None ctx given :
  target_or_reply ctx given = None ↔
  given = None ∧
  (ctx_message_reference ctx = None ∨
   ∃ reference, ctx_message_reference ctx = Some reference ∧ resolved reference = None).
Proof.
  unfold target_or_reply. destruct given as [m|]; [by split; [|intros []]|].
  destruct (ctx_message_reference ctx) as [reference|]; cbn.
  - split.
    + intros Hr. split; [done|]. right. by exists reference.
    + intros [_ [?|(reference' & [= <-] & Hr)]]; done.
  - split; [|done]. intros _. split; [done|by left].
Qed.

(** Invoked with no message argument and with no reply, or with a reply the
    library did not fetch, [bookmark] calls nothing and raises
    [UserInputError] with the guidance text, which lists the three lookup
    strategies. *)
Lemma bookmark_without_target fuel self ctx given title p w :
  target_or_reply ctx given = None →
  bookmark fuel self ctx given title p w
    = (Raise (UserInputError MESSAGE_NOT_FOUND_ERROR), w) ∧
  mentions "1. Lookup by '{channel ID}-{message ID}'" MESSAGE_NOT_FOUND_ERROR = true ∧
  mentions "2. Lookup by message ID" MESSAGE_NOT_FOUND_ERROR = true ∧
  mentions "3. Lookup by message URL" MESSAGE_NOT_FOUND_ERROR = true.
Proof.
  intros Hres. split_and!; [|by vm_compute..].
  unfold bookmark. by rewrite Hres.
Qed.

(** Invoked with no message argument as a reply to a deleted message, both
    commands pass their [if not ...] test and raise [AttributeError] at the
    [channel] attribute, having called nothing. *)
Lemma bookmark_deleted_reply fuel self ctx given title p w :
  target_or_reply ctx given = Some DeletedReferencedMessage →
  bookmark fuel self ctx given title p w = (Raise (OtherException "AttributeError"), w).
Proof. intros Hres. unfold bookmark. by rewrite Hres. Qed.

Lemma delete_bookmark_deleted_reply ctx given deleted w :
  target_or_reply ctx given = Some DeletedReferencedMessage →
  delete_bookmark ctx given deleted w = (Raise (OtherException "AttributeError"), w).
Proof. intros Hres. unfold delete_bookmark. by rewrite Hres. Qed.

(** C7 (the code departs from the claim).  Alice invokes [bookmark] with no
    message argument, as a reply to a message that has been deleted: there
    is no message to bookmark.  The command does not raise [UserInputError]
    with the guidance text.  The [DeletedReferencedMessage] the library puts
    in [resolved] passes [if not target_message], and the command raises
    [AttributeError] at [target_message.channel], whatever the platform
    would answer, having called nothing.  Without a reply, or with a reply
    that was not fetched, the same invocation raises the guidance. *)
Theorem deleted_reply_raises_no_guidance fuel self title p w :
  resolve ctx_reply_deleted None = None ∧
  bookmark fuel self ctx_reply_deleted None title p w
    = (Raise (OtherException "AttributeError"), w) ∧
  (bookmark fuel self ctx_reply_deleted None title p w).1
    ≠ Raise (UserInputError MESSAGE_NOT_FOUND_ERROR) ∧
  bookmark fuel self ctx7 None title p w
    = (Raise (UserInputError MESSAGE_NOT_FOUND_ERROR), w) ∧
  bookmark fuel self ctx_reply_unfetched None title p w
    = (Raise (UserInputError MESSAGE_NOT_FOUND_ERROR), w).
Proof. split_and!; done. Qed.

(** * Further properties *)

(** ** How the cache evolves *)

Lemma evolves_refl ks w : evolves ks w w.
Proof. by split. Qed.

Lemma evolves_record ks ev w : evolves ks w (record ev w).
Proof. by split. Qed.

Lemma evolves_weaken ks ks' w w' :
  ks ⊆ ks' → evolves ks w w' → evolves ks' w w'.
Proof.
  intros Hsub [Hdom Hks]. split; [done|].
  intros k Hk. apply Hks. intros Hin. apply Hk, Hsub, Hin.
Qed.

Lemma evolves_trans ks1 ks2 w1 w2 w3 :
  evolves ks1 w1 w2 → evolves ks2 w2 w3 → evolves (ks1 ++ ks2) w1 w3.
Proof.
  intros [Hdom1 Hks1] [Hdom2 Hks2]. split; [by rewrite Hdom2|].
  intros k Hk. rewrite Hks2, Hks1; [done|..];
    intros Hin; apply Hk, elem_of_app; auto.
Qed.

Lemma listed_key_present w k x :
  x ∈ bookmarks_of w k → is_Some (member_bookmarked_messages w !! k).
Proof.
  unfold bookmarks_of. destruct (member_bookmarked_messages w !! k); [by eexists|].
  by intros ?%elem_of_nil.
Qed.

Lemma evolves_insert w k l t :
  is_Some (member_bookmarked_messages w !! k) →
  evolves [k] w {| member_bookmarked_messages := <[k := l]> (member_bookmarked_messages w);
                   trace := t |}.
Proof.
  intros Hk. split; cbn.
  - by apply dom_insert_lookup_L.
  - intros k' Hk'. apply lookup_insert_ne. intros ->. apply Hk'. by left.
Qed.

(** Neither action creates or drops a key, nor touches another member's
    entry. *)
Lemma update_evolves member x action w :
  evolves [member_id member] w (update_member_bookmarked_messages member x action w).2.
Proof.
  destruct (decide (x ∈ bookmarks_of w (member_id member))) as [Hx|Hx].
  - pose proof (listed_key_present _ _ _ Hx) as Hkey. destruct action.
    + rewrite update_add_present by done. by apply evolves_insert.
    + destruct (update_remove_present member x w Hx) as (l & _ & ->).
      by apply evolves_insert.
  - rewrite update_absent by done. apply evolves_refl.
Qed.

Lemma same_ids_refl w : same_ids w w.
Proof. by intros k x. Qed.

Lemma same_ids_record ev w : same_ids w (record ev w).
Proof. by intros k x. Qed.

Lemma same_ids_trans w1 w2 w3 : same_ids w1 w2 → same_ids w2 w3 → same_ids w1 w3.
Proof. intros H12 H23 k x. etrans; [apply H23|apply H12]. Qed.

(** The append of [add] is of an id the list holds already. *)
Lemma update_add_same_ids member x w :
  same_ids w (update_member_bookmarked_messages member x add w).2.
Proof.
  intros k y.
  destruct (decide (x ∈ bookmarks_of w (member_id member))) as [Hx|Hx].
  - rewrite update_add_present by done. cbn [snd]. rewrite bookmarks_of_insert.
    destruct (decide (member_id member = k)) as [<-|]; [|done].
    rewrite elem_of_app, list_elem_of_singleton.
    split; [by intros [?| ->] | by left].
  - by rewrite update_absent.
Qed.

(** ** What one delivery does *)

Lemma action_bookmark_effects channel member target title sent posted w :
  ∃ evs,
    trace (action_bookmark channel member target title sent posted w).2 = trace w ++ evs ∧
    evolves [member_id member] w (action_bookmark channel member target title sent posted w).2 ∧
    dm_targets evs `sublist_of` [member_id member] ∧
    Forall pass_event evs ∧
    removals evs = [] ∧
    Forall (λ ce, ce.1 = channel) (posts evs) ∧
    same_ids w (action_bookmark channel member target title sent posted w).2.
Proof.
  destruct (decide (message_id target ∈ bookmarks_of w (member_id member))) as [Hin|Hin].
  { rewrite action_bookmark_already by done. eexists [_]. cbn.
    split_and!; [done|apply evolves_record|apply sublist_nil_l| |done| |by intros k x].
    - by repeat constructor.
    - by repeat constructor. }
  destruct sent as [dm|e].
  - rewrite action_bookmark_delivered by done. cbn [snd].
    set (w1 := record _ w).
    destruct (update_spec member (message_id dm) add w1) as (w' & Hupd & Ht & _).
    pose proof (update_evolves member (message_id dm) add w1) as Hev.
    pose proof (update_add_same_ids member (message_id dm) w1) as Hsame.
    rewrite Hupd in *. cbn [snd] in *. rewrite Ht. eexists [_].
    split_and!; [done| |done| |done|done|done].
    + destruct Hev as [Hdom Hks]. by split.
    + by repeat constructor.
  - rewrite action_bookmark_refused by done. cbv zeta.
    destruct e; cbn [snd record trace]; rewrite <- ?app_assoc;
      (eexists; split_and!;
        [reflexivity|by split| |by repeat constructor|done|by repeat constructor
        |by intros k x]);
      cbn; first [done | by apply sublist_skip, sublist_nil_l].
Qed.

(** ** What a run of the loop does *)

Lemma dm_targets_app t1 t2 : dm_targets (t1 ++ t2) = dm_targets t1 ++ dm_targets t2.
Proof. apply omap_app. Qed.

Lemma removals_app t1 t2 : removals (t1 ++ t2) = removals t1 ++ removals t2.
Proof. apply omap_app. Qed.

Lemma posts_app t1 t2 : posts (t1 ++ t2) = posts t1 ++ posts t2.
Proof. apply omap_app. Qed.

Lemma dm_targets_wait name timeout a t :
  dm_targets (WaitFor name timeout a :: t) = dm_targets t.
Proof. reflexivity. Qed.

Lemma removals_wait name timeout a t :
  removals (WaitFor name timeout a :: t) = removals t.
Proof. reflexivity. Qed.

Lemma posts_wait name timeout a t : posts (WaitFor name timeout a :: t) = posts t.
Proof. reflexivity. Qed.

Lemma accepted_timed_out name timeout e : accepted [WaitFor name timeout (Raises e)] = [].
Proof. reflexivity. Qed.

Lemma accepted_removal r a : accepted [ReactionRemove r a] = [].
Proof. reflexivity. Qed.

Lemma dm_targets_removal r a : dm_targets [ReactionRemove r a] = [].
Proof. reflexivity. Qed.

Lemma removals_removal r a : removals [ReactionRemove r a] = [r].
Proof. reflexivity. Qed.

Lemma posts_removal r a : posts [ReactionRemove r a] = [].
Proof. reflexivity. Qed.

(** A reaction that a wait of the loop returns is a pushpin on the prompt. *)
Lemma accepted_reaction_on_prompt self prompt users arrivals reaction user :
  wait_for_answer TIMEOUT (event_check self prompt users) arrivals
    = Returns (reaction, user) →
  reaction_message_id reaction = message_id prompt ∧
  reaction_emoji reaction = BOOKMARK_EMOJI.
Proof.
  intros [Hchk _]%wait_for_answer_returns.
  by apply event_check_spec in Hchk as (? & _ & ? & _).
Qed.

Lemma collecting_effects fuel self ctx target title prompt :
  ∀ turns users w,
  ∃ evs,
    trace (collecting fuel self ctx target title prompt turns users w).2 = trace w ++ evs ∧
    evolves (accepted evs) w (collecting fuel self ctx target title prompt turns users w).2 ∧
    dm_targets evs `sublist_of` accepted evs ∧
    Forall (λ r, reaction_message_id r = message_id prompt ∧
                 reaction_emoji r = BOOKMARK_EMOJI) (removals evs) ∧
    Forall (λ ce, ce.1 = ctx_channel ctx) (posts evs) ∧
    deletions evs = [] ∧
    same_ids w (collecting fuel self ctx target title prompt turns users w).2.
Proof.
  induction fuel as [|fuel IH]; intros turns users w.
  { exists []. cbn. rewrite app_nil_r.
    split_and!; [done|apply evolves_refl|done|done|done|done|done]. }
  rewrite collecting_unfold. cbv zeta.
  destruct (wait_for_answer _ _ _) as [[reaction user]|e] eqn:Hw.
  2: { eexists [_]. cbn [snd record trace].
       split_and!; [done|apply evolves_record|apply sublist_nil_l|done|done|done|done]. }
  pose proof (accepted_reaction_on_prompt _ _ _ _ _ _ Hw) as Hpin.
  set (wait := WaitFor "reaction_add" TIMEOUT (Returns (reaction, user))).
  set (w1 := record wait w). rewrite bind_unfold.
  destruct (action_bookmark_effects (ctx_channel ctx) user target title
              (turn_sent (turns O)) (turn_posted (turns O)) w1)
    as (evs1 & Ht1 & Hev1 & Hdm1 & Hpass1 & Hrm1 & Hposts1 & Hsame1).
  destruct (pass_projections evs1 Hpass1) as (Hacc1 & _ & Hdel1).
  assert (Hev01 : evolves [member_id user] w
            (action_bookmark (ctx_channel ctx) user target title
               (turn_sent (turns O)) (turn_posted (turns O)) w1).2).
  { destruct Hev1 as [Hdom Hks]. by split. }
  destruct (action_bookmark _ _ _ _ _ _ w1) as [[[]|e1|] w2]; cbn [fst snd] in *.
  2,3: exists (wait :: evs1); subst wait;
    rewrite accepted_wait_returns, dm_targets_wait, removals_wait, posts_wait,
      deletions_wait, Hacc1, Hrm1;
    (split_and!;
      [rewrite Ht1; subst w1; cbn [record trace]; by rewrite <- app_assoc
      |done|done|done|done|done|done]).
  rewrite bind_unfold, platform_unfold.
  assert (Hev02 : ∀ a, evolves [member_id user] w (record (ReactionRemove reaction a) w2)).
  { intros a. destruct Hev01 as [Hdom Hks]. by split. }
  assert (Ht2 : ∀ a, trace (record (ReactionRemove reaction a) w2)
                     = trace w ++ wait :: evs1 ++ [ReactionRemove reaction a]).
  { intros a. cbn [record trace]. rewrite Ht1. subst w1. cbn [record trace].
    by rewrite <- !app_assoc. }
  destruct (turn_removed (turns O)) as [[]|e2] eqn:E2; cbn [result_of].
  2: { exists (wait :: evs1 ++ [ReactionRemove reaction (Raises e2)]). subst wait.
       rewrite accepted_wait_returns, dm_targets_wait, removals_wait, posts_wait,
         deletions_wait.
       rewrite accepted_app, dm_targets_app, removals_app, posts_app, deletions_app,
         Hacc1, Hrm1, Hdel1.
       rewrite accepted_removal, dm_targets_removal, removals_removal, posts_removal.
       rewrite !app_nil_r. cbn [snd app].
       split_and!; [apply Ht2|apply Hev02|done|by apply Forall_singleton|done|done|done]. }
  set (w3 := record (ReactionRemove reaction (Returns ())) w2).
  destruct (IH (λ n, turns (S n)) (users ++ [member_id user]) w3)
    as (evs & Ht & Hev & Hdm & Hrm & Hposts & Hdel & Hsame).
  exists (wait :: (evs1 ++ [ReactionRemove reaction (Returns ())]) ++ evs). subst wait.
  rewrite accepted_wait_returns, dm_targets_wait, removals_wait, posts_wait, deletions_wait.
  rewrite !accepted_app, !dm_targets_app, !removals_app, !posts_app, !deletions_app,
    Hacc1, Hrm1, Hdel1, Hdel.
  rewrite accepted_removal, dm_targets_removal, removals_removal, posts_removal.
  rewrite !app_nil_r. cbn [app].
  split_and!; [| | | | |done|].
  - rewrite Ht. subst w3. rewrite Ht2. by rewrite <- app_assoc.
  - apply (evolves_trans [member_id user] (accepted evs) w _ _ (Hev02 _) Hev).
  - change (member_id user :: accepted evs) with ([member_id user] ++ accepted evs).
    by apply sublist_app.
  - by apply Forall_cons_2.
  - apply Forall_app. by split.
  - intros k x. etrans; [apply Hsame|]. apply Hsame1.
Qed.

(** ** What an invocation of [bookmark] does *)

Lemma bookmark_effects fuel self ctx given title p w :
  ∃ evs,
    trace (bookmark fuel self ctx given title p w).2 = trace w ++ evs ∧
    evolves (member_id (ctx_author ctx) :: accepted evs) w
      (bookmark fuel self ctx given title p w).2 ∧
    dm_targets evs `sublist_of` member_id (ctx_author ctx) :: accepted evs ∧
    Forall (λ ce, ce.1 = ctx_channel ctx) (posts evs) ∧
    (removals evs = [] ∧ deletions evs = [] ∨
     ∃ prompt, prompt_posted p = Returns prompt ∧
       Forall (λ r, reaction_message_id r = message_id prompt ∧
                    reaction_emoji r = BOOKMARK_EMOJI) (removals evs) ∧
       deletions evs `sublist_of` [message_id prompt]) ∧
    same_ids w (bookmark fuel self ctx given title p w).2.
Proof.
  unfold bookmark. destruct (target_or_reply ctx given) as [[target|]|].
  2,3: exists []; cbn; rewrite app_nil_r;
       split_and!; [done|apply evolves_refl|apply sublist_nil_l|done|by left
                   |apply same_ids_refl].
  destruct (read_messages p); cbn [negb].
  2: { rewrite bind_unfold, platform_unfold.
       destruct (denial_posted p); eexists [_]; cbn;
         (split_and!; [reflexivity|by split|apply sublist_nil_l
                      |by apply Forall_singleton|by left|by intros k x]). }
  rewrite bind_unfold.
  destruct (action_bookmark_effects (ctx_channel ctx) (ctx_author ctx) target title
              (author_sent p) (author_posted p) w)
    as (evs1 & Ht1 & Hev1 & Hdm1 & Hpass1 & Hrm1 & Hposts1 & Hsame1).
  destruct (pass_projections evs1 Hpass1) as (Hacc1 & _ & Hdel1).
  set (author := member_id (ctx_author ctx)) in *.
  destruct (action_bookmark _ _ _ _ _ _ w) as [[[]|e1|] w1]; cbn [fst snd] in *.
  2,3: exists evs1; rewrite Hacc1;
    (split_and!; [done|done|done|done|by left|done]).
  rewrite bind_unfold, platform_unfold.
  fold (prompt_embed ctx).
  set (ev2 := ChannelSend (ctx_channel ctx) (prompt_embed ctx) (prompt_posted p)).
  assert (Hev2 : evolves [author] w (record ev2 w1)).
  { destruct Hev1 as [Hdom Hks]. by split. }
  assert (Hacc2 : accepted [ev2] = []) by done.
  assert (Hdm2 : dm_targets [ev2] = []) by done.
  assert (Hrm2 : removals [ev2] = []) by done.
  assert (Hdel2 : deletions [ev2] = []) by done.
  assert (Hposts2 : posts [ev2] = [(ctx_channel ctx, prompt_embed ctx)]) by done.
  destruct (prompt_posted p) as [prompt|e2] eqn:Hprompt; cbn [result_of].
  2: { exists (evs1 ++ [ev2]).
       rewrite accepted_app, dm_targets_app, removals_app, deletions_app, posts_app.
       rewrite Hacc1, Hacc2, Hdm2, Hrm1, Hrm2, Hdel1, Hdel2, Hposts2, !app_nil_r.
       cbn [snd record trace app]. rewrite Ht1, <- app_assoc.
       split_and!; [done|done|done| |by left|exact Hsame1].
       apply Forall_app. split; [done|]. by apply Forall_singleton. }
  rewrite bind_unfold, platform_unfold.
  set (ev3 := AddReaction (message_id prompt) BOOKMARK_EMOJI (reaction_added p)).
  set (w3 := record ev3 (record ev2 w1)).
  assert (Ht3 : trace w3 = trace w ++ evs1 ++ [ev2; ev3]).
  { subst w3. cbn [record trace]. by rewrite Ht1, <- !app_assoc. }
  assert (Hev3 : evolves [author] w w3).
  { destruct Hev1 as [Hdom Hks]. by split. }
  assert (Hsame3 : same_ids w w3) by exact Hsame1.
  assert (Hacc3 : accepted [ev2; ev3] = []) by done.
  assert (Hdm3 : dm_targets [ev2; ev3] = []) by done.
  assert (Hrm3 : removals [ev2; ev3] = []) by done.
  assert (Hdel3 : deletions [ev2; ev3] = []) by done.
  assert (Hposts3 : posts [ev2; ev3] = [(ctx_channel ctx, prompt_embed ctx)]) by done.
  assert (Hposts13 : Forall (λ ce, ce.1 = ctx_channel ctx)
                       (posts evs1 ++ [(ctx_channel ctx, prompt_embed ctx)])).
  { apply Forall_app. split; [done|]. by apply Forall_singleton. }
  destruct (reaction_added p) as [[]|e3] eqn:Hadded; cbn [result_of].
  2: { exists (evs1 ++ [ev2; ev3]).
       rewrite accepted_app, dm_targets_app, removals_app, deletions_app, posts_app.
       rewrite Hacc1, Hacc3, Hdm3, Hrm1, Hrm3, Hdel1, Hdel3, Hposts3, !app_nil_r.
       cbn [snd app]. fold w3.
       split_and!; [done|done|done|done|by left|done]. }
  fold w3. rewrite bind_unfold.
  destruct (collecting_effects fuel self ctx target title prompt (turns p) [author] w3)
    as (loop & Ht & Hev & Hdm & Hrm & Hposts & Hdel & Hsame).
  assert (Hshared : ∀ tail,
    accepted tail = [] → dm_targets tail = [] → removals tail = [] → posts tail = [] →
    deletions tail `sublist_of` [message_id prompt] →
    let evs := (evs1 ++ [ev2; ev3]) ++ loop ++ tail in
    dm_targets evs `sublist_of` author :: accepted evs ∧
    Forall (λ ce, ce.1 = ctx_channel ctx) (posts evs) ∧
    (removals evs = [] ∧ deletions evs = [] ∨
     ∃ prompt', Returns prompt = Returns prompt' ∧
       Forall (λ r, reaction_message_id r = message_id prompt' ∧
                    reaction_emoji r = BOOKMARK_EMOJI) (removals evs) ∧
       deletions evs `sublist_of` [message_id prompt']) ∧
    accepted evs = accepted loop).
  { intros tail Hacct Hdmt Hrmt Hpostst Hdelt. cbv zeta.
    rewrite !accepted_app, !dm_targets_app, !removals_app, !deletions_app, !posts_app.
    rewrite Hacc1, Hacc3, Hdm3, Hrm1, Hrm3, Hdel1, Hdel3, Hposts3, Hdel.
    rewrite Hacct, Hdmt, Hrmt, Hpostst, !app_nil_r. cbn [app].
    split_and!; [|by apply Forall_app|right|done].
    - change (author :: accepted loop) with ([author] ++ accepted loop).
      by apply sublist_app.
    - by exists prompt. }
  assert (Hsame4 : same_ids w (collecting fuel self ctx target title prompt (turns p)
                                 [author] w3).2).
  { by eapply same_ids_trans. }
  destruct (collecting _ _ _ _ _ _ _ _ w3) as [[l|e4|] w4]; cbn [fst snd] in *.
  - rewrite platform_unfold. cbn [snd record trace].
    set (ev5 := MessageDelete (message_id prompt) (prompt_deleted p)).
    destruct (Hshared [ev5]) as (H1 & H2 & H3 & Hacc); [done..| ].
    exists ((evs1 ++ [ev2; ev3]) ++ loop ++ [ev5]). rewrite Hacc.
    split_and!; [by rewrite Ht, Ht3, <- !app_assoc| |by rewrite <- Hacc|done|done
                |exact Hsame4].
    apply (evolves_trans [author] (accepted loop) w w3 _ Hev3).
    destruct Hev as [Hdom Hks]. by split.
  - destruct (Hshared []) as (H1 & H2 & H3 & Hacc); [done..|apply sublist_nil_l|].
    exists ((evs1 ++ [ev2; ev3]) ++ loop ++ []). rewrite Hacc.
    split_and!; [by rewrite Ht, Ht3, app_nil_r, <- !app_assoc| |by rewrite <- Hacc|done
                |done|done].
    apply (evolves_trans [author] (accepted loop) w w3 _ Hev3 Hev).
  - destruct (Hshared []) as (H1 & H2 & H3 & Hacc); [done..|apply sublist_nil_l|].
    exists ((evs1 ++ [ev2; ev3]) ++ loop ++ []). rewrite Hacc.
    split_and!; [by rewrite Ht, Ht3, app_nil_r, <- !app_assoc| |by rewrite <- Hacc|done
                |done|done].
    apply (evolves_trans [author] (accepted loop) w w3 _ Hev3 Hev).
Qed.

Lemma bookmark_new_events_unique fuel self ctx given title p w evs evs' :
  trace (bookmark fuel self ctx given title p w).2 = trace w ++ evs →
  trace (bookmark fuel self ctx given title p w).2 = trace w ++ evs' →
  evs = evs'.
Proof. intros -> Heq. by apply app_inv_head in Heq. Qed.

(** Nobody is accepted twice in an invocation, and the author not at all. *)
Lemma bookmark_accepted_NoDup fuel self ctx given title p w evs :
  trace (bookmark fuel self ctx given title p w).2 = trace w ++ evs →
  NoDup (member_id (ctx_author ctx) :: accepted evs).
Proof.
  intros Ht.
  destruct (bookmark_run fuel self ctx given title p w) as (evs' & Ht' & _ & Hshape).
  rewrite (bookmark_new_events_unique _ _ _ _ _ _ _ _ _ Ht Ht').
  destruct Hshape as [Hquiet|(prompt & quiet & loop & final & tail & _ & Hq & Hrun & Htail & ->)].
  - rewrite (quiet_accepted _ Hquiet). apply NoDup_singleton.
  - rewrite !accepted_app, (quiet_accepted _ Hq), (quiet_accepted _ Htail), app_nil_r.
    apply (loop_run_accepted _ _ _ [member_id (ctx_author ctx)] _ _ Hrun).
    apply NoDup_singleton.
Qed.

(** X3.  In one invocation of [bookmark] no member is the target of
    [member.send] twice, however often they react: the targets are the
    author and reactors a wait accepted, each at most once. *)
Theorem one_dm_per_member_per_invocation fuel self ctx given title p w :
  ∃ evs,
    trace (bookmark fuel self ctx given title p w).2 = trace w ++ evs ∧
    NoDup (dm_targets evs) ∧
    dm_targets evs ⊆ member_id (ctx_author ctx) :: accepted evs.
Proof.
  destruct (bookmark_effects fuel self ctx given title p w)
    as (evs & Ht & _ & Hdm & _).
  exists evs. split_and!; [done| |].
  - eapply sublist_NoDup; [|exact Hdm]. by eapply bookmark_accepted_NoDup.
  - by apply sublist_subseteq.
Qed.

(** X2.  An invocation of [bookmark] leaves the cache entry of everybody
    but the author and the reactors it accepted exactly as it was, absent
    entries included. *)
Theorem bookmark_touches_only_participants fuel self ctx given title p w :
  ∃ evs,
    trace (bookmark fuel self ctx given title p w).2 = trace w ++ evs ∧
    ∀ k, k ≠ member_id (ctx_author ctx) → k ∉ accepted evs →
         member_bookmarked_messages (bookmark fuel self ctx given title p w).2 !! k
         = member_bookmarked_messages w !! k.
Proof.
  destruct (bookmark_effects fuel self ctx given title p w)
    as (evs & Ht & [_ Hks] & _).
  exists evs. split; [done|]. intros k Hauthor Hacc. apply Hks.
  by intros [?|?]%elem_of_cons.
Qed.

(** X4.  Whatever the platform answers, [bookmark] posts embeds only in the
    channel it was invoked in, removes only pushpin reactions on its own
    prompt, and deletes no message but its own prompt, and that at most
    once. *)
Theorem bookmark_keeps_to_its_channel_and_prompt fuel self ctx given title p w :
  ∃ evs,
    trace (bookmark fuel self ctx given title p w).2 = trace w ++ evs ∧
    Forall (λ ce, ce.1 = ctx_channel ctx) (posts evs) ∧
    (removals evs = [] ∧ deletions evs = [] ∨
     ∃ prompt, prompt_posted p = Returns prompt ∧
       Forall (λ r, reaction_message_id r = message_id prompt ∧
                    reaction_emoji r = BOOKMARK_EMOJI) (removals evs) ∧
       deletions evs `sublist_of` [message_id prompt]).
Proof.
  destruct (bookmark_effects fuel self ctx given title p w)
    as (evs & Ht & _ & _ & Hposts & Hown & _).
  by exists evs.
Qed.

(** X5.  [bookmark] changes nobody's set of ids: an id is in a member's
    list after the invocation exactly when it was in it before, whoever was
    sent a DM. *)
Theorem bookmark_never_changes_ids fuel self ctx given title p w k x :
  x ∈ bookmarks_of (bookmark fuel self ctx given title p w).2 k ↔ x ∈ bookmarks_of w k.
Proof.
  destruct (bookmark_effects fuel self ctx given title p w)
    as (evs & _ & _ & _ & _ & _ & Hsame).
  apply Hsame.
Qed.

(** ** [bookmark delete] *)

Lemma delete_bookmark_evolves ctx given deleted w :
  evolves [member_id (ctx_author ctx)] w (delete_bookmark ctx given deleted w).2.
Proof.
  unfold delete_bookmark. destruct (target_or_reply ctx given) as [[msg|]|]; [|apply evolves_refl..].
  destruct (decide _); [apply evolves_refl|].
  rewrite bind_unfold, platform_unfold. destruct deleted as [[]|e]; cbn [result_of].
  - pose proof (update_evolves (ctx_author ctx) (message_id msg) remove
                  (record (MessageDelete (message_id msg) (Returns ())) w)) as [Hdom Hks].
    by split.
  - apply evolves_record.
Qed.

(** [list.remove] takes out the first occurrence and nothing else. *)
Lemma list_remove_first x l l' :
  list_remove x l = Some l' ↔
  ∃ l1 l2, l = l1 ++ x :: l2 ∧ (x ∉ l1) ∧ l' = l1 ++ l2.
Proof.
  revert l'. induction l as [|y l IH]; intros l'; cbn.
  - split; [done|]. intros (l1 & l2 & Heq & _). by destruct l1.
  - destruct (decide (x = y)) as [->|Hne].
    + split.
      * intros [= <-]. exists [], l. split_and!; [done|apply not_elem_of_nil|done].
      * intros (l1 & l2 & Heq & Hout & ->). destruct l1 as [|z l1]; cbn in Heq.
        -- by simplify_eq.
        -- simplify_eq. exfalso. apply Hout. by left.
    + destruct (list_remove x l) as [l0|] eqn:E; cbn.
      * split.
        -- intros [= <-]. destruct (proj1 (IH l0) eq_refl) as (l1 & l2 & -> & Hout & ->).
           exists (y :: l1), l2. split_and!; [done| |done].
           intros [?|?]%elem_of_cons; [by apply Hne|by apply Hout].
        -- intros (l1 & l2 & Heq & Hout & ->). destruct l1 as [|z l1]; cbn in Heq.
           { by simplify_eq. }
           simplify_eq. f_equal. cbn. f_equal.
           assert (Some l0 = Some (l1 ++ l2)) as [= ->]; [|done].
           apply IH. exists l1, l2. split_and!; [done| |done].
           intros Hin. apply Hout. by right.
      * split; [done|]. intros (l1 & l2 & Heq & Hout & ->).
        destruct l1 as [|z l1]; cbn in Heq; simplify_eq.
        assert (None = Some (l1 ++ l2)) as Habs; [|done].
        apply IH. exists l1, l2. split_and!; [done| |done].
        intros Hin. apply Hout. by right.
Qed.

(** X6.  [bookmark delete] on a message of the author's DM channel whose id
    is in the author's list, the deletion going through: the command
    returns and the first occurrence of the id is taken out of the list,
    the rest of the list keeping its order and every other member's entry
    its value. *)
Theorem delete_removes_first_occurrence ctx given msg w :
  resolve ctx given = Some msg →
  message_channel msg = ctx_channel ctx →
  message_id msg ∈ bookmarks_of w (member_id (ctx_author ctx)) →
  (delete_bookmark ctx given (Returns tt) w).1 = Ok tt ∧
  (∃ l1 l2,
     bookmarks_of w (member_id (ctx_author ctx)) = l1 ++ message_id msg :: l2 ∧
     (message_id msg ∉ l1) ∧
     member_bookmarked_messages (delete_bookmark ctx given (Returns tt) w).2
       !! member_id (ctx_author ctx) = Some (l1 ++ l2)) ∧
  (∀ k, k ≠ member_id (ctx_author ctx) →
        member_bookmarked_messages (delete_bookmark ctx given (Returns tt) w).2 !! k
        = member_bookmarked_messages w !! k).
Proof.
  intros Hres Hch Hin.
  rewrite (delete_bookmark_resolved ctx given msg) by done.
  rewrite bind_unfold, platform_unfold. cbn [result_of].
  set (w1 := record _ w).
  destruct (update_remove_present (ctx_author ctx) (message_id msg) w1 Hin)
    as (l & Hl & ->).
  apply list_remove_first in Hl as (l1 & l2 & Hl & Hout & ->).
  split_and!; [done| |].
  - exists l1, l2. split_and!; [done|done|]. cbn. apply lookup_insert_eq.
  - intros k Hk. cbn. by apply lookup_insert_ne.
Qed.

(** X7.  [bookmark delete] deletes at most one message, and only the
    resolved one when it lies in the channel of the invocation; a message
    of another channel is refused with [UserInputError] before any call;
    and unless the command returns, the cache is exactly as it was. *)
Theorem delete_is_guarded ctx given deleted w :
  (trace (delete_bookmark ctx given deleted w).2 = trace w ∨
   ∃ msg, resolve ctx given = Some msg ∧
          message_channel msg = ctx_channel ctx ∧
          trace (delete_bookmark ctx given deleted w).2
            = trace w ++ [MessageDelete (message_id msg) deleted]) ∧
  (∀ msg, resolve ctx given = Some msg →
          message_channel msg ≠ ctx_channel ctx →
          delete_bookmark ctx given deleted w
            = (Raise (UserInputError ":x: You can only delete messages in your own DMs!"),
               w)) ∧
  ((delete_bookmark ctx given deleted w).1 ≠ Ok tt →
   member_bookmarked_messages (delete_bookmark ctx given deleted w).2
     = member_bookmarked_messages w).
Proof.
  unfold delete_bookmark, resolve.
  destruct (target_or_reply ctx given) as [[msg|]|]; [|by split_and!; [left|..]..].
  destruct (decide (message_channel msg ≠ ctx_channel ctx)) as [Hne|Heq].
  { split_and!; [by left| |done]. by intros msg' [= <-] _. }
  apply dec_stable in Heq.
  rewrite bind_unfold, platform_unfold.
  destruct deleted as [[]|e]; cbn [result_of].
  - set (w1 := record _ w).
    destruct (update_spec (ctx_author ctx) (message_id msg) remove w1)
      as (w' & -> & Ht & _). cbn [fst snd].
    split_and!; [right; exists msg; by rewrite Ht|by intros msg' [= <-]|done].
  - split_and!; [right; by exists msg|by intros msg' [= <-]|done].
Qed.

(** X6 for Alice deleting DM 777, which her seeded list holds. *)
Lemma delete_removes_first_occurrence_witness :
  (delete_bookmark ctx11 (Some dm777) (Returns tt) w_seeded).1 = Ok tt ∧
  (∃ l1 l2,
     bookmarks_of w_seeded (member_id (ctx_author ctx11)) = l1 ++ message_id dm777 :: l2 ∧
     (message_id dm777 ∉ l1) ∧
     member_bookmarked_messages (delete_bookmark ctx11 (Some dm777) (Returns tt) w_seeded).2
       !! member_id (ctx_author ctx11) = Some (l1 ++ l2)) ∧
  (∀ k, k ≠ member_id (ctx_author ctx11) →
        member_bookmarked_messages (delete_bookmark ctx11 (Some dm777) (Returns tt) w_seeded).2
          !! k
        = member_bookmarked_messages w_seeded !! k).
Proof.
  apply (delete_removes_first_occurrence ctx11 (Some dm777) dm777 w_seeded).
  - reflexivity.
  - reflexivity.
  - by left.
Defined.

(** ** The cache over sequences of commands *)

Lemma run_invocation_keys w i :
  dom (member_bookmarked_messages (run_invocation w i)) = dom (member_bookmarked_messages w).
Proof.
  destruct i as [fuel self ctx given title p acked|ctx given deleted acked];
    cbn [run_invocation]; unfold invoke; rewrite try_except_unfold.
  - destruct (bookmark_effects fuel self ctx given title p w) as (_ & _ & [Hdom _] & _).
    destruct (bookmark fuel self ctx given title p w) as [[[]|e|] w'];
      cbn [snd] in *; [done| |done].
    by rewrite on_command_error_cache.
  - destruct (delete_bookmark_evolves ctx given deleted w) as [Hdom _].
    destruct (delete_bookmark ctx given deleted w) as [[[]|e|] w'];
      cbn [snd] in *; [done| |done].
    by rewrite on_command_error_cache.
Qed.

(** X1.  No sequence of [bookmark] and [bookmark delete] invocations
    creates a cache entry or drops one: the members with an entry are the
    same before and after, whatever was delivered or deleted. *)
Theorem cache_keys_never_change invs w :
  dom (member_bookmarked_messages (run_invocations invs w))
  = dom (member_bookmarked_messages w).
Proof.
  revert w. induction invs as [|i invs IH]; intros w; [done|].
  cbn. change (foldl run_invocation (run_invocation w i) invs)
    with (run_invocations invs (run_invocation w i)).
  by rewrite IH, run_invocation_keys.
Qed.

(** ** Failures of the author's delivery *)

(** X8.  When [member.send] to the author raises anything but [Forbidden],
    [bookmark] ends there with that exception: no error embed and no prompt
    are posted, nothing is waited for. *)
Theorem send_failure_ends_bookmark fuel self ctx given target title p e w :
  resolve ctx given = Some target →
  read_messages p = true →
  message_id target ∉ bookmarks_of w (member_id (ctx_author ctx)) →
  author_sent p = Raises e →
  e ≠ Forbidden → e ≠ AlreadyBookmarkedError →
  bookmark fuel self ctx given title p w =
  (Raise e,
   record (MemberSend (member_id (ctx_author ctx)) (build_bookmark_dm target title)
             (Raises e)) w).
Proof.
  intros Hres Hread Hout Hsent Hf Ha. unfold bookmark.
  rewrite (resolve_Some _ _ _ Hres), Hread. cbn [negb]. rewrite bind_unfold, Hsent.
  rewrite action_bookmark_refused by done. cbv zeta.
  by destruct e.
Qed.

(** X8 for Alice, whose DM fails with [HTTPException]. *)
Lemma send_failure_ends_bookmark_witness :
  bookmark 3 cog ctx7 (Some msgX) "Bookmark" session_send_fails w_seeded =
  (Raise HTTPException,
   record (MemberSend 1 (build_bookmark_dm msgX "Bookmark") (Raises HTTPException))
     w_seeded).
Proof.
  apply (send_failure_ends_bookmark 3 cog ctx7 (Some msgX) msgX "Bookmark"
           session_send_fails HTTPException w_seeded); try done.
  intros Hin. apply list_elem_of_singleton in Hin. discriminate Hin.
Defined.

(** X9.  When the author's delivery fails in one of the two handled ways
    (the target is in the author's list already, or the author's DMs are
    closed) and the error embed is posted, the command goes on: the first
    two embeds it posts are the error embed and the prompt. *)
Theorem handled_failure_still_prompts fuel self ctx given target title p w :
  resolve ctx given = Some target →
  read_messages p = true →
  message_id target ∈ bookmarks_of w (member_id (ctx_author ctx))
    ∨ author_sent p = Raises Forbidden →
  (∃ m, author_posted p = Returns m) →
  ∃ evs text more,
    trace (bookmark fuel self ctx given title p w).2 = trace w ++ evs ∧
    (text = already_bookmarked_text (ctx_author ctx)
     ∨ text = enable_dms_text (ctx_author ctx)) ∧
    posts evs = (ctx_channel ctx, ErrorEmbed text)
                :: (ctx_channel ctx, prompt_embed ctx) :: more.
Proof.
  intros Hres Hread Hfail [m Hposted]. unfold bookmark.
  rewrite (resolve_Some _ _ _ Hres), Hread. cbn [negb]. rewrite bind_unfold.
  assert (∃ text pre,
    action_bookmark (ctx_channel ctx) (ctx_author ctx) target title
      (author_sent p) (author_posted p) w
    = (Ok tt, {| member_bookmarked_messages := member_bookmarked_messages w;
                 trace := trace w ++ pre |}) ∧
    (text = already_bookmarked_text (ctx_author ctx)
     ∨ text = enable_dms_text (ctx_author ctx)) ∧
    posts pre = [(ctx_channel ctx, ErrorEmbed text)])
    as (text & pre & -> & Htext & Hposts).
  { destruct (decide (message_id target ∈ bookmarks_of w (member_id (ctx_author ctx))))
      as [Hin|Hout].
    - rewrite action_bookmark_already, Hposted by done.
      exists (already_bookmarked_text (ctx_author ctx)),
        [ChannelSend (ctx_channel ctx)
           (ErrorEmbed (already_bookmarked_text (ctx_author ctx))) (Returns m)].
      split_and!; [done|by left|done].
    - destruct Hfail as [?|Hsent]; [done|].
      rewrite Hsent, action_bookmark_forbidden, Hposted by done.
      exists (enable_dms_text (ctx_author ctx)),
        [MemberSend (member_id (ctx_author ctx)) (build_bookmark_dm target title)
           (Raises Forbidden);
         ChannelSend (ctx_channel ctx)
           (ErrorEmbed (enable_dms_text (ctx_author ctx))) (Returns m)].
      unfold record. cbn [trace member_bookmarked_messages outcome_of].
      rewrite <- app_assoc. split_and!; [done|by right|done]. }
  set (w1 := {| member_bookmarked_messages := _; trace := _ |}).
  rewrite bind_unfold, platform_unfold. fold (prompt_embed ctx).
  set (ev2 := ChannelSend (ctx_channel ctx) (prompt_embed ctx) (prompt_posted p)).
  assert (Hfront : ∀ rest,
    posts (pre ++ ev2 :: rest)
      = (ctx_channel ctx, ErrorEmbed text) :: (ctx_channel ctx, prompt_embed ctx)
        :: posts rest).
  { intros rest. by rewrite posts_app, Hposts. }
  destruct (prompt_posted p) as [prompt|e2]; cbn [result_of].
  2: { exists (pre ++ [ev2]), text, (posts []). cbn [snd record trace]. subst w1. cbn [trace].
       rewrite <- app_assoc. split_and!; [done|done|apply Hfront]. }
  rewrite bind_unfold, platform_unfold.
  set (ev3 := AddReaction (message_id prompt) BOOKMARK_EMOJI (reaction_added p)).
  set (w3 := record ev3 (record ev2 w1)).
  assert (Ht3 : trace w3 = trace w ++ pre ++ [ev2; ev3]).
  { subst w3 w1. cbn [record trace]. by rewrite <- !app_assoc. }
  destruct (reaction_added p) as [[]|e3]; cbn [result_of].
  2: { exists (pre ++ [ev2; ev3]), text, (posts [ev3]). cbn [snd]. fold w3.
       split_and!; [done|done|apply Hfront]. }
  fold w3. rewrite bind_unfold.
  destruct (collecting_effects fuel self ctx target title prompt (turns p)
              [member_id (ctx_author ctx)] w3) as (loop & Ht & _).
  destruct (collecting _ _ _ _ _ _ _ _ w3) as [[l|e4|] w4]; cbn [fst snd] in *.
  - rewrite platform_unfold. cbn [snd record trace].
    exists (pre ++ ev2 :: ev3 :: loop
            ++ [MessageDelete (message_id prompt) (prompt_deleted p)]), text,
      (posts (ev3 :: loop ++ [MessageDelete (message_id prompt) (prompt_deleted p)])).
    split_and!; [|done|apply Hfront]. rewrite Ht, Ht3, <- !app_assoc. done.
  - exists (pre ++ ev2 :: ev3 :: loop), text, (posts (ev3 :: loop)).
    split_and!; [|done|apply Hfront]. rewrite Ht, Ht3, <- !app_assoc. done.
  - exists (pre ++ ev2 :: ev3 :: loop), text, (posts (ev3 :: loop)).
    split_and!; [|done|apply Hfront]. rewrite Ht, Ht3, <- !app_assoc. done.
Qed.

(** X9 for Alice, whose DMs are closed. *)
Lemma handled_failure_still_prompts_witness :
  ∃ evs text more,
    trace (bookmark 3 cog ctx7 (Some msgX) "Bookmark" session_dms_closed w_seeded).2
      = trace w_seeded ++ evs ∧
    (text = already_bookmarked_text (ctx_author ctx7)
     ∨ text = enable_dms_text (ctx_author ctx7)) ∧
    posts evs = (ctx_channel ctx7, ErrorEmbed text)
                :: (ctx_channel ctx7, prompt_embed ctx7) :: more.
Proof.
  apply (handled_failure_still_prompts 3 cog ctx7 (Some msgX) msgX "Bookmark"
           session_dms_closed w_seeded).
  - reflexivity.
  - reflexivity.
  - by right.
  - by eexists.
Defined.

(** X10.  When the author has no read access to the channel of the
    target, all [bookmark] does is post the permission error in the
    invoking channel: nobody is sent a DM, no prompt is posted, the cache is
    not read or written, and the command returns unless that post raises. *)
Theorem no_read_access_no_bookmark fuel self ctx given target title p w :
  resolve ctx given = Some target →
  read_messages p = false →
  bookmark fuel self ctx given title p w =
  (outcome_of (denial_posted p),
   record (ChannelSend (ctx_channel ctx) (ErrorEmbed (permission_text (ctx_author ctx)))
             (denial_posted p)) w).
Proof.
  intros Hres Hread. unfold bookmark. rewrite (resolve_Some _ _ _ Hres), Hread. cbn [negb].
  rewrite bind_unfold, platform_unfold. by destruct (denial_posted p).
Qed.

(** X10 for Alice, who cannot read channel 7. *)
Lemma no_read_access_no_bookmark_witness :
  bookmark 3 cog ctx7 (Some msgX) "Bookmark" session_denied w_seeded =
  (Ok tt,
   record (ChannelSend 7 (ErrorEmbed (permission_text alice)) (Returns prompt600))
     w_seeded).
Proof.
  apply (no_read_access_no_bookmark 3 cog ctx7 (Some msgX) msgX "Bookmark"
           session_denied w_seeded); reflexivity.
Defined.

(** * bot.py: the readiness gate and the startup notice *)

Lemma b_bind_unfold {A A'} (m : B A) (f : A → B A') (s : Session) :
  (m ≫= f) s =
  match m s with
  | (Ok a, s') => f a s'
  | (Raise e, s') => (Raise e, s')
  | (OutOfFuel, s') => (OutOfFuel, s')
  end.
Proof. reflexivity. Qed.

Lemma session_eta s : {| guild_available := guild_available s; calls := calls s |} = s.
Proof. by destruct s. Qed.

(** No handler makes a call. *)
Lemma dispatch_calls c ev s : calls (dispatch c ev s).2 = calls s.
Proof.
  destruct ev as [guild|guild]; cbn;
    unfold on_guild_available, on_guild_unavailable;
    repeat case_decide; try done; by destruct (_ || _).
Qed.

(** The flag after one event: set by an event that opens, otherwise kept
    unless the event closes. *)
Lemma dispatch_flag c ev s :
  guild_available (dispatch c ev s).2 = true ↔
  opens c ev ∨ (guild_available s = true ∧ ¬ closes c ev).
Proof.
  destruct ev as [guild|guild]; cbn;
    unfold on_guild_available, on_guild_unavailable.
  - destruct (decide (guild_id guild ≠ Client_guild c)) as [Hne|Heq]; cbn.
    { tauto. }
    apply dec_stable in Heq.
    destruct (bool_decide (guild_roles guild = [])) eqn:Hr;
      [|destruct (bool_decide (guild_members guild = [])) eqn:Hm;
        [|destruct (bool_decide (guild_channels guild = [])) eqn:Hc]];
      cbn; rewrite ?bool_decide_eq_true, ?bool_decide_eq_false in *; tauto.
  - destruct (decide (guild_id guild ≠ Client_guild c)) as [Hne|Heq]; cbn.
    { tauto. }
    apply dec_stable in Heq. split; [done|tauto].
Qed.

Lemma run_events_cons c ev events s :
  run_events c (ev :: events) s = run_events c events (dispatch c ev s).2.
Proof. reflexivity. Qed.

(** X11.  After any sequence of guild events the gate is open exactly when
    some event reported the home guild available with none of its caches
    empty and the home guild was not reported unavailable after it, or when
    it was open at first and the home guild was never reported unavailable.
    Events of other guilds, and availability with an empty cache, change
    nothing; no handler makes a call. *)
Theorem gate_after_events c events s :
  calls (run_events c events s) = calls s ∧
  (guild_available (run_events c events s) = true ↔
   (∃ pre ev post, events = pre ++ ev :: post ∧ opens c ev ∧
                   Forall (λ ev', ¬ closes c ev') post)
   ∨ (guild_available s = true ∧ Forall (λ ev', ¬ closes c ev') events)).
Proof.
  revert s. induction events as [|ev events IH]; intros s.
  { split; [done|]. cbn. split.
    - intros Hs. right. by split.
    - intros [(pre & ev & post & Heq & _)|[Hs _]]; [by destruct pre|done]. }
  rewrite run_events_cons. destruct (IH (dispatch c ev s).2) as [IHcalls IHflag].
  split; [by rewrite IHcalls, dispatch_calls|].
  rewrite IHflag, dispatch_flag. split.
  - intros [(pre & ev' & post & -> & Hopens & Hpost)|[[Hopens|[Hs Hev]] Hrest]].
    + left. by exists (ev :: pre), ev', post.
    + left. by exists [], ev, events.
    + right. split; [done|]. by apply Forall_cons_2.
  - intros [(pre & ev' & post & Heq & Hopens & Hpost)|[Hs Hall]].
    + destruct pre as [|ev0 pre]; cbn in Heq; simplify_eq.
      * right. split; [by left|done].
      * left. by exists pre, ev', post.
    + apply Forall_cons in Hall as [Hev Hrest]. right. split; [by right|done].
Qed.

(** The coroutine resumes, with the flag set, as soon as the gate is open. *)
Lemma wait_resumes c events s :
  guild_available s = true ∨ Exists (opens c) events →
  wait_until_guild_available c events s
  = (Ok tt, {| guild_available := true; calls := calls s |}).
Proof.
  revert s. induction events as [|ev events IH]; intros s Hopen.
  - destruct Hopen as [Hs|Hex]; [|by apply Exists_nil in Hex].
    cbn. rewrite Hs. by rewrite <- Hs, session_eta.
  - cbn. destruct (guild_available s) eqn:Hs.
    { by rewrite <- Hs, session_eta. }
    rewrite IH, dispatch_calls; [done|].
    destruct Hopen as [?|Hex]; [done|].
    apply Exists_cons in Hex as [Hopens|Hex]; [|by right].
    left. apply dispatch_flag. by left.
Qed.

(** It stays suspended, the session as it was, while nothing opens the
    gate. *)
Lemma wait_suspended c events s :
  guild_available s = false →
  Forall (λ ev, ¬ opens c ev) events →
  wait_until_guild_available c events s = (OutOfFuel, s).
Proof.
  intros Hs Hnone. induction Hnone as [|ev events Hev _ IH]; cbn; rewrite Hs; [done|].
  assert ((dispatch c ev s).2 = s) as ->; [|done].
  pose proof (dispatch_calls c ev s) as Hcalls.
  pose proof (dispatch_flag c ev s) as Hflag.
  destruct (dispatch c ev s).2 as [flag' calls']; destruct s as [flag calls0];
    cbn in *. subst. f_equal.
  destruct flag'; [|done]. exfalso.
  destruct (proj1 Hflag eq_refl) as [?|[? _]]; done.
Qed.

(** X12.  While the gate is closed and no event opens it, [send_log] is
    suspended: it looks up nothing, fetches nothing and sends nothing, and
    the session is as it was. *)
Theorem send_log_waits_for_the_gate c title details icon n s :
  guild_available s = false →
  Forall (λ ev, ¬ opens c ev) (guild_events n) →
  send_log c title details icon n s = (OutOfFuel, s).
Proof.
  intros Hs Hnone. unfold send_log.
  by rewrite b_bind_unfold, wait_suspended.
Qed.

(** X12 for a start at which the home guild never comes up warm. *)
Lemma send_log_waits_for_the_gate_witness :
  send_log pydis "SeasonalBot" (Some "Connected!") None notice_never_ready starting
  = (OutOfFuel, starting).
Proof.
  apply (send_log_waits_for_the_gate pydis "SeasonalBot" (Some "Connected!") None
           notice_never_ready starting).
  - reflexivity.
  - repeat apply Forall_cons_2; [| |apply Forall_nil_2].
    + by intros (_ & _ & Hm & _).
    + by intros [Hid _].
Defined.

(** X13.  Once the gate is open, when the devlog channel is not cached and
    its fetch fails, [send_log] sends nothing: a failure that is an
    [HTTPException] ([Forbidden] and [NotFound] included) is swallowed and
    the coroutine returns, any other exception propagates. *)
Theorem send_log_gives_up_when_fetch_fails c title details icon n s e :
  guild_available s = true ∨ Exists (opens c) (guild_events n) →
  cached n = None →
  fetched n = Raises e →
  send_log c title details icon n s
  = (if is_HTTPException e then Ok tt else Raise e,
     {| guild_available := true;
        calls := calls s ++ [GetChannel (Channels_devlog c) None;
                             FetchChannel (Channels_devlog c) (Raises e)] |}).
Proof.
  intros Hopen Hcached Hfetched. unfold send_log.
  rewrite b_bind_unfold, wait_resumes by done.
  rewrite Hcached, Hfetched. run_session.
  destruct (is_HTTPException e); cbn; by rewrite <- ?app_assoc.
Qed.

(** X13 for a fetch refused with [Forbidden]. *)
Lemma send_log_gives_up_when_fetch_fails_witness :
  send_log pydis "SeasonalBot" (Some "Connected!") None notice_fetch_refused starting
  = (Ok tt,
     {| guild_available := true;
        calls := [GetChannel 40 None; FetchChannel 40 (Raises Forbidden)] |}).
Proof.
  apply (send_log_gives_up_when_fetch_fails pydis "SeasonalBot" (Some "Connected!") None
           notice_fetch_refused starting Forbidden).
  - right. apply Exists_cons_tl, Exists_cons_tl, Exists_cons_hd.
    by split_and!.
  - reflexivity.
  - reflexivity.
Defined.

(** X14.  Once the gate is open and the devlog channel is found, in the
    cache or else by a fetch, [send_log] sends exactly one embed, to that
    channel: its description is [details], its author name [title], its
    icon the one given or, when none or an empty one is given, the avatar
    of the bot; the channel is fetched only when the cache misses, and the
    outcome of the send is the outcome of [send_log]. *)
Theorem send_log_posts_one_notice c title details icon n s channel :
  guild_available s = true ∨ Exists (opens c) (guild_events n) →
  cached n = Some channel ∨ (cached n = None ∧ fetched n = Returns channel) →
  send_log c title details icon n s
  = (result_of (notice_sent n),
     {| guild_available := true;
        calls := calls s
          ++ [GetChannel (Channels_devlog c) (cached n)]
          ++ match cached n with
             | Some _ => []
             | None => [FetchChannel (Channels_devlog c) (fetched n)]
             end
          ++ (if not_icon icon then [AvatarUrlAs "png" (avatar n)] else [])
          ++ [DevlogSend channel
                {| log_description := details;
                   log_author_name := title;
                   log_author_icon_url :=
                     if not_icon icon then avatar n else default "" icon |}
                (notice_sent n)] |}).
Proof.
  intros Hopen Hfound. unfold send_log.
  rewrite b_bind_unfold, wait_resumes by done.
  destruct Hfound as [Hcached|[Hcached Hfetched]];
    rewrite Hcached, ?Hfetched; run_session;
    destruct (not_icon icon); cbn; by rewrite <- ?app_assoc.
Qed.

(** X14 for the startup notice, the channel fetched and no icon given. *)
Lemma send_log_posts_one_notice_witness :
  send_log pydis "SeasonalBot" (Some "Connected!") None notice_fetched starting
  = (Ok tt,
     {| guild_available := true;
        calls := [GetChannel 40 None; FetchChannel 40 (Returns 40);
                  AvatarUrlAs "png" "https://cdn.discordapp.com/avatars/99/a.png";
                  DevlogSend 40
                    {| log_description := Some "Connected!";
                       log_author_name := "SeasonalBot";
                       log_author_icon_url :=
                         "https://cdn.discordapp.com/avatars/99/a.png" |}
                    (Returns tt)] |}).
Proof.
  apply (send_log_posts_one_notice pydis "SeasonalBot" (Some "Connected!") None
           notice_fetched starting 40).
  - right. apply Exists_cons_tl, Exists_cons_tl, Exists_cons_hd.
    by split_and!.
  - right. by split.
Defined.
